(** * MedSchool sandbox: broker (execd.py) and the two tool adapters
      (python_exec.py, shell_exec.py)

    A shallow embedding of the code-execution core of the repository:
    - [Execd]      : docker/sandbox/execd.py, the [/run] handler;
    - [PythonExec] : docker/mcp_server/tools/python_exec.py;
    - [ShellExec]  : docker/mcp_server/tools/shell_exec.py.

    Python [str] values are sequences of Unicode code points, so they are
    modelled as lists of code points; [len], slicing and [strip] count code
    points, exactly as in Python 3. *)

From Stdlib Require Import ZArith NArith QArith List String Ascii Bool Lia.
From Stdlib Require Import DecimalString SpecFloat.
Import ListNotations.

Local Open Scope Z_scope.
Set Warnings "-register-all,-abstract-large-number".

(* ------------------------------------------------------------------ *)
(** ** Python strings *)

Module PyStr.

(** A Python [str]: the list of its code points. *)
Definition str := list N.

(** A source-code literal (ASCII text). *)
Definition lit (s : string) : str :=
  List.map N_of_ascii (list_ascii_of_string s).

Definition len (s : str) : Z := Z.of_nat (List.length s).

(** Truthiness of a [str]: [bool(s)] is [len(s) != 0]. *)
Definition truthy (s : str) : bool :=
  match s with [] => false | _ :: _ => true end.

(** [s[:n]]: the first [n] items, or all but the last [-n] when [n] is
    negative. *)
Definition slice_to (n : Z) (s : str) : str :=
  if n <? 0 then firstn (Z.to_nat (len s + n)) s
  else firstn (Z.to_nat n) s.

Definition str_eqb (a b : str) : bool :=
  if list_eq_dec N.eq_dec a b then true else false.

(** [x or empty_string] where [x] is a [str] or [None]. *)
Definition or_empty (x : option str) : str :=
  match x with Some s => s | None => [] end.

(** [str.isspace] on one code point: the characters that [str.strip()]
    removes (Unicode white space, and the separators FS, GS, RS, US). *)
Definition isspace (c : N) : bool :=
  ((9 <=? c) && (c <=? 13) || (28 <=? c) && (c <=? 32)
   || (c =? 133) || (c =? 160) || (c =? 5760)
   || (8192 <=? c) && (c <=? 8202)
   || (c =? 8232) || (c =? 8233) || (c =? 8239) || (c =? 8287)
   || (c =? 12288))%N.

Fixpoint lstrip (s : str) : str :=
  match s with
  | [] => []
  | c :: r => if isspace c then lstrip r else s
  end.

Definition rstrip (s : str) : str := rev (lstrip (rev s)).

(** [s.strip()] with no argument. *)
Definition strip (s : str) : str := rstrip (lstrip s).

(** Number of bytes of one code point in UTF-8, the encoding of the
    JSON bodies exchanged with the broker. *)
Definition utf8_width (c : N) : Z :=
  if (c <? 128)%N then 1
  else if (c <? 2048)%N then 2
  else if (c <? 65536)%N then 3
  else 4.

Definition utf8_len (s : str) : Z :=
  fold_right (fun c acc => utf8_width c + acc) 0 s.

(** [str(n)] / [f"{n}"] for an [int]. *)
Definition of_int (z : Z) : str := lit (NilZero.string_of_int (Z.to_int z)).

(** Prefix and substring relations, used to state what a message
    contains. *)
Definition prefix (p s : str) : Prop := exists t, s = p ++ t.
Definition contains (s p : str) : Prop := exists a b, s = a ++ p ++ b.

End PyStr.
Import PyStr.

(* ------------------------------------------------------------------ *)
(** ** docker/sandbox/execd.py *)

Module Execd.

Definition OUTPUT_CAP : Z := 32768.

(** [class RunReq(BaseModel)]. *)
Record RunReq := mkRunReq {
  code : str;
  timeout_s : Z;
  mem_mb : Z;
  cpus : Q;
}.

(** The [Field(ge=..., le=...)] constraints of [RunReq]. *)
Definition RunReq_valid (r : RunReq) : bool :=
  (1 <=? timeout_s r) && (timeout_s r <=? 30)
  && (64 <=? mem_mb r) && (mem_mb r <=? 4096)
  && Qle_bool (1 # 10) (cpus r) && Qle_bool (cpus r) 2.

(** [class RunResp(BaseModel)]. *)
Record RunResp := mkRunResp {
  stdout : str;
  stderr : str;
  exit_code : Z;
}.

(** What the [docker run ... python -] command does when it is given the
    request: either it cannot be launched, or it runs for [duration]
    seconds of wall-clock time and leaves its captured streams and return
    code. *)
Inductive process :=
| DockerMissing (e : str)          (* the docker CLI is not found *)
| LaunchFails (e : str)            (* any other exception of subprocess.run *)
| Runs (duration : Q) (out err : option str) (returncode : Z).

(** Outcome of [subprocess.run(cmd, ..., timeout=t)]. *)
Inductive run_outcome :=
| CompletedProcess (out err : option str) (returncode : Z)
| TimeoutExpired
| FileNotFoundError (e : str)
| OtherException (e : str).

(** [subprocess.run] waits at most [t] seconds; a process still running
    then is killed and [TimeoutExpired] is raised. *)
Definition subprocess_run (p : process) (t : Z) : run_outcome :=
  match p with
  | DockerMissing e => FileNotFoundError e
  | LaunchFails e => OtherException e
  | Runs d out err rc =>
      if Qle_bool d (inject_Z t) then CompletedProcess out err rc
      else TimeoutExpired
  end.

(** Result of the handler: a 2xx body or [HTTPException(status, detail)]. *)
Inductive response :=
| Ok (r : RunResp)
| HTTPException (status_code : Z) (detail : str).

Section Handler.
(** [DEFAULT_TIMEOUT = int(os.getenv("SANDBOX_TIMEOUT", "7"))]. *)
Variable DEFAULT_TIMEOUT : Z.

(** The [timeout=] argument of [subprocess.run]. *)
Definition deadline (req : RunReq) : Z :=
  Z.min (timeout_s req) DEFAULT_TIMEOUT.

(** [def run(req: RunReq)]: the try block and its three handlers. *)
Definition run (req : RunReq) (p : process) : response :=
  match subprocess_run p (deadline req) with
  | CompletedProcess o e rc =>
      let out := slice_to OUTPUT_CAP (or_empty o) in
      let err := slice_to OUTPUT_CAP (or_empty e) in
      Ok (mkRunResp out err rc)
  | TimeoutExpired => Ok (mkRunResp [] (lit "TIMEOUT") 124)
  | FileNotFoundError e =>
      HTTPException 500 (lit "Docker CLI not found: " ++ e)
  | OtherException e => HTTPException 500 e
  end.
End Handler.

End Execd.

(* ------------------------------------------------------------------ *)
(** ** JSON values and the Python library functions the tools call *)

Module Json.

(** What [json.loads] returns: [None], [bool], [int], [float], [str],
    [list] or [dict].  A [dict] is kept as its items, keys unique. *)
Inductive json :=
| JNull
| JBool (b : bool)
| JInt (n : Z)
| JFloat (f : spec_float)
| JString (s : str)
| JArray (l : list json)
| JObject (items : list (str * json)).

(** [d.get(key, default)]. *)
Fixpoint get (items : list (str * json)) (key : str) (default : json)
  : json :=
  match items with
  | [] => default
  | (k, v) :: r => if str_eqb k key then v else get r key default
  end.

(** [bool(v)], as used by [v or other]. *)
Definition truthy (v : json) : bool :=
  match v with
  | JNull => false
  | JBool b => b
  | JInt n => negb (n =? 0)
  | JFloat (S754_zero _) => false
  | JFloat _ => true
  | JString s => PyStr.truthy s
  | JArray l => match l with [] => false | _ => true end
  | JObject l => match l with [] => false | _ => true end
  end.

(** [int(f)] for a [float]: truncation towards zero; infinities and NaN
    raise. *)
Definition int_of_float (f : spec_float) : option Z :=
  match f with
  | S754_zero _ => Some 0
  | S754_infinity _ => None
  | S754_nan => None
  | S754_finite s m e =>
      let mag := if 0 <=? e then Z.pos m * 2 ^ e
                 else Z.pos m / 2 ^ (- e) in
      Some (if s then - mag else mag)
  end.

End Json.
Import Json.

(** The functions of the Python standard library that the tools call and
    whose code is not part of the repository.  [None] stands for a raised
    exception. *)
Class PythonLib := {
  json_loads : str -> option json;      (* json.loads(s) *)
  json_dumps : str -> str;              (* json.dumps(s) for a str *)
  int_of_str : str -> option Z;         (* int(s) for a str *)
  dedent : str -> str;                  (* textwrap.dedent(s) *)
}.

(** [int(v)] for a value that came out of [json.loads]. *)
Definition py_int `{PythonLib} (v : json) : option Z :=
  match v with
  | JInt n => Some n
  | JBool b => Some (if b then 1 else 0)
  | JFloat f => int_of_float f
  | JString s => int_of_str s
  | JNull | JArray _ | JObject _ => None
  end.

(** Runtime config of the tools, read from the environment at import. *)
Class Settings := {
  EXEC_URL : str;      (* PYEXEC_EXECUTOR_URL *)
  CPU_SEC : Z;         (* PYEXEC_TIMEOUT_S *)
  MEM_MB : Z;          (* PYEXEC_MEM_MB *)
  CPUS : Q;            (* PYEXEC_CPUS *)
}.

(* ------------------------------------------------------------------ *)
(** ** The HTTP call both tools make *)

Module Http.

(** The JSON body sent to [POST /run]. *)
Record payload := mkPayload {
  p_code : str;
  p_timeout_s : Z;
  p_mem_mb : Z;
  p_cpus : Q;
}.

(** The dict [data = resp.json()], through the three keys the tools
    read.  For [stdout] and [stderr], [None] is a key that is absent or
    null; for [exit_code], [None] is an absent key (the broker's
    [RunResp] never sends null there). *)
Record data := mkData {
  d_stdout : option str;
  d_stderr : option str;
  d_exit_code : option Z;
}.

(** Outcome of the [with httpx.Client(...)] block. *)
Inductive post_outcome :=
| HTTPError (e : str)          (* httpx.HTTPError, raise_for_status included *)
| ClientException (e : str)    (* any other exception *)
| Body (d : data).

(** [httpx.Client(timeout=t).post(url, json=payload)], then
    [raise_for_status()] and [json()]. *)
Definition client := str -> Z -> payload -> post_outcome.

Definition http_error_msg `{Settings} (e : str) : str :=
  lit "sandbox HTTP error: " ++ e
  ++ lit ". Check sandbox service (" ++ EXEC_URL ++ lit ").".

Definition invocation_error_msg (e : str) : str :=
  lit "sandbox invocation error: " ++ e ++ lit ".".

End Http.
Import Http.

(** Both tools either return their result model or raise
    [fastmcp.exceptions.ToolError(msg)]. *)
Inductive outcome (R : Type) :=
| Return (r : R)
| ToolError (msg : str).
Arguments Return {R} r.
Arguments ToolError {R} msg.

Definition nl : str := [10%N].          (* "\n" *)
Definition dq : str := [34%N].          (* the double quote *)
Definition ellipsis : str := [8230%N].  (* the horizontal ellipsis, U+2026 *)

(* ------------------------------------------------------------------ *)
(** ** docker/mcp_server/tools/python_exec.py *)

Module PythonExec.

(** [class PythonExecResult(BaseModel)]; the field [json] is [JNull] for
    Python's [None]. *)
Record PythonExecResult := mkResult {
  stdout : str;
  stderr : str;
  exit_code : Z;
  json : Json.json;
}.

(** The code run when no code is given. *)
Definition introspection : str :=
  lit "import json,importlib.metadata,platform" ++ nl
  ++ lit "pkgs=[{'name':d.metadata['Name'],'version':d.version}"
  ++ lit "      for d in importlib.metadata.distributions()]" ++ nl
  ++ lit "print(json.dumps({'python':platform.python_version(),"
  ++ lit "                  'packages':pkgs}))".

Definition no_stdout_msg : str :=
  lit "No stdout captured. Make sure to print any results you want to use "
  ++ lit "(prefer JSON, e.g., print(json.dumps({...}))).".

(** The message built in the [if exit_code != 0:] branch. *)
Definition failure_msg (exit_code : Z) (err : str) : str :=
  let msg := lit "sandbox failed (exit " ++ of_int exit_code ++ lit ")" in
  if PyStr.truthy (strip err) then
    let snippet := strip err in
    let snippet :=
      if 800 <? len snippet then slice_to 800 snippet ++ ellipsis
      else snippet in
    msg ++ lit ": " ++ snippet
  else msg.

Section Tool.
Context `{PythonLib} `{Settings}.

(** [if not code: code = (...)]. *)
Definition effective_code (code : option str) : str :=
  match code with
  | Some c => if PyStr.truthy c then c else introspection
  | None => introspection
  end.

Definition make_payload (code : option str) : payload :=
  mkPayload (dedent (effective_code code)) CPU_SEC MEM_MB CPUS.

(** From [# Normalize fields from sandbox response] to the end. *)
Definition normalize (d : data) : outcome PythonExecResult :=
  let out := or_empty (d_stdout d) in
  let err := or_empty (d_stderr d) in
  let exit_code := match d_exit_code d with Some n => n | None => 1 end in
  if negb (exit_code =? 0) then ToolError (failure_msg exit_code err)
  else if negb (PyStr.truthy (strip out)) then ToolError no_stdout_msg
  else
    let parsed :=
      if PyStr.truthy (strip out) then
        match json_loads out with Some v => v | None => JNull end
      else JNull in
    Return (mkResult out err exit_code parsed).

(** [def python_exec(code: str | None = None)]. *)
Definition python_exec (post : client) (code : option str)
  : outcome PythonExecResult :=
  match post (EXEC_URL ++ lit "/run") (CPU_SEC + 3) (make_payload code) with
  | HTTPError e => ToolError (http_error_msg e)
  | ClientException e => ToolError (invocation_error_msg e)
  | Body d => normalize d
  end.
End Tool.

End PythonExec.

(* ------------------------------------------------------------------ *)
(** ** docker/mcp_server/tools/shell_exec.py *)

Module ShellExec.

(** [class ShellExecResult(BaseModel)]. *)
Record ShellExecResult := mkResult {
  stdout : str;
  stderr : str;
  exit_code : Z;
}.

(** [x or y] on an optional [int]: [None] and [0] are falsy. *)
Definition int_or (x : option Z) (y : Z) : Z :=
  match x with
  | Some n => if n =? 0 then y else n
  | None => y
  end.

Section Tool.
Context `{PythonLib} `{Settings}.

(** The f-string [py_wrapper], stripped. *)
Definition py_wrapper (script : str) (stdin : option str) : str :=
  strip (
    nl ++ lit "import json, subprocess, os, sys" ++ nl
    ++ lit "script = " ++ json_dumps script ++ nl
    ++ lit "inp    = " ++ json_dumps (or_empty stdin) ++ nl
    ++ lit "# Prefer bash if present for nicer pipes/globs; fall back to sh."
    ++ nl
    ++ lit "shell = " ++ dq ++ lit "/bin/bash" ++ dq
    ++ lit " if os.path.exists(" ++ dq ++ lit "/bin/bash" ++ dq
    ++ lit ") else " ++ dq ++ lit "/bin/sh" ++ dq ++ nl
    ++ lit "p = subprocess.run([shell, " ++ dq ++ lit "-lc" ++ dq
    ++ lit ", script], input=inp, text=True, capture_output=True)" ++ nl
    ++ lit "print(json.dumps({" ++ dq ++ lit "stdout" ++ dq
    ++ lit ": p.stdout, " ++ dq ++ lit "stderr" ++ dq
    ++ lit ": p.stderr, " ++ dq ++ lit "exit_code" ++ dq
    ++ lit ": p.returncode}))" ++ nl).

Definition make_payload (script : str) (stdin : option str)
  (timeout_s : option Z) : payload :=
  mkPayload (dedent (py_wrapper script stdin))
            (int_or timeout_s CPU_SEC) MEM_MB CPUS.

(** The body of the second [try]: [None] when any exception is raised
    in it (by [json.loads], by [.get] on a value that is no dict, by
    [int], or by the validation of [ShellExecResult], whose [stdout]
    and [stderr] must be [str]). *)
Definition unpack (out err : str) : option ShellExecResult :=
  match json_loads out with
  | Some (JObject inner) =>
      let so := get inner (lit "stdout") (JString []) in
      let se := get inner (lit "stderr") (JString []) in
      let se := if Json.truthy se then se else JString err in
      match so, se, py_int (get inner (lit "exit_code") (JInt 0)) with
      | JString o, JString e, Some n => Some (mkResult o e n)
      | _, _, _ => None
      end
  | _ => None
  end.

(** From [# Outer sandbox succeeded] to the end. *)
Definition unwrap (d : data) : outcome ShellExecResult :=
  let out := strip (or_empty (d_stdout d)) in
  let err := or_empty (d_stderr d) in
  if negb (PyStr.truthy out) then Return (mkResult [] err 0)
  else
    match unpack out err with
    | Some r => Return r
    | None => Return (mkResult out err 0)
    end.

(** [def shell_exec(script, stdin=None, timeout_s=None)]. *)
Definition shell_exec (post : client) (script : str)
  (stdin : option str) (timeout_s : option Z)
  : outcome ShellExecResult :=
  match post (EXEC_URL ++ lit "/run") (int_or timeout_s CPU_SEC + 3)
             (make_payload script stdin timeout_s) with
  | HTTPError e => ToolError (http_error_msg e)
  | ClientException e => ToolError (invocation_error_msg e)
  | Body d => unwrap d
  end.
End Tool.

End ShellExec.

(* ------------------------------------------------------------------ *)
(** ** The broker behind the HTTP call *)

Module Wire.
Import Execd.

(** The request FastAPI builds from the posted body. *)
Definition request_of (p : payload) : RunReq :=
  mkRunReq (p_code p) (p_timeout_s p) (p_mem_mb p) (p_cpus p).

(** [response_model=RunResp]: the body carries the three keys. *)
Definition body_of (r : RunResp) : data :=
  mkData (Some (Execd.stdout r)) (Some (Execd.stderr r))
         (Some (Execd.exit_code r)).

(** The sandbox service as the tools see it: a body that violates the
    field constraints is answered 422, an [HTTPException] is answered
    with its status, and [raise_for_status] turns both into an
    [httpx.HTTPError] (its text is kept to the status code). *)
Definition serve (DEFAULT_TIMEOUT : Z) (docker : RunReq -> process)
  : client :=
  fun _url _timeout p =>
    let req := request_of p in
    if RunReq_valid req then
      match run DEFAULT_TIMEOUT req (docker req) with
      | Ok r => Body (body_of r)
      | HTTPException status _ => HTTPError (of_int status)
      end
    else HTTPError (of_int 422).

End Wire.

(* ------------------------------------------------------------------ *)
(** ** A reference implementation of the library functions

    Executable models of [json.loads], [json.dumps] (on a [str]), [int]
    (on a [str]) and [textwrap.dedent], written after CPython 3.11.  The
    theorems below hold for any [PythonLib]; this instance is what the
    examples run on.  Not modelled: the interpreter's recursion limit, and
    non-ASCII decimal digits in [int]. *)

Module CPython.

Definition is_digit (c : N) : bool := ((48 <=? c) && (c <=? 57))%N.

Fixpoint take_digits (s : str) : list N * str :=
  match s with
  | c :: r =>
      if is_digit c then
        let (d, r') := take_digits r in ((c - 48)%N :: d, r')
      else ([], s)
  | [] => ([], [])
  end.

Definition digits_value (d : list N) : Z :=
  fold_left (fun acc c => 10 * acc + Z.of_N c) d 0.

(** [float] of a decimal literal: the nearest binary64 to
    [(-1)^neg * m * 10^e], ties to even. *)
Definition float_of_decimal (neg : bool) (m e : Z) : spec_float :=
  let sign (x : Z) := if neg then - x else x in
  if m <=? 0 then S754_zero neg
  else if 0 <=? e then binary_normalize 53 1024 (sign (m * 10 ^ e)) 0 neg
  else
    let den := 10 ^ (- e) in
    let p := Z.log2 den + 64 in
    let q := (m * 2 ^ p) / den in
    let sticky := if (m * 2 ^ p) mod den =? 0 then 0 else 1 in
    binary_normalize 53 1024 (sign (2 * q + sticky)) (- p - 1) neg.

(** *** json.loads *)

Definition is_ws (c : N) : bool :=
  ((c =? 32) || (c =? 9) || (c =? 10) || (c =? 13))%N.

Fixpoint skip_ws (s : str) : str :=
  match s with
  | c :: r => if is_ws c then skip_ws r else s
  | [] => []
  end.

Fixpoint strip_prefix (p s : str) : option str :=
  match p, s with
  | [], _ => Some s
  | a :: p', b :: s' => if (a =? b)%N then strip_prefix p' s' else None
  | _ :: _, [] => None
  end.

Definition hex_digit (c : N) : option N :=
  if is_digit c then Some (c - 48)%N
  else if ((97 <=? c) && (c <=? 102))%N then Some (c - 87)%N
  else if ((65 <=? c) && (c <=? 70))%N then Some (c - 55)%N
  else None.

(** The four hex digits after a backslash-u. *)
Definition hex4 (s : str) : option (N * str) :=
  match s with
  | a :: b :: c :: d :: r =>
      match hex_digit a, hex_digit b, hex_digit c, hex_digit d with
      | Some a, Some b, Some c, Some d =>
          Some ((((a * 16 + b) * 16 + c) * 16 + d)%N, r)
      | _, _, _, _ => None
      end
  | _ => None
  end.

Definition escape_char (e : N) : option N :=
  if ((e =? 34) || (e =? 92) || (e =? 47))%N then Some e
  else if (e =? 98)%N then Some 8%N
  else if (e =? 102)%N then Some 12%N
  else if (e =? 110)%N then Some 10%N
  else if (e =? 114)%N then Some 13%N
  else if (e =? 116)%N then Some 9%N
  else None.

(** The text of a string literal after its opening quote; [fuel] bounds
    the number of items read. *)
Fixpoint scan_string (fuel : nat) (s acc : str) : option (str * str) :=
  match fuel with
  | O => None
  | S fuel =>
      match s with
      | [] => None
      | c :: r =>
          if (c =? 34)%N then Some (rev acc, r)
          else if (c =? 92)%N then
            match r with
            | [] => None
            | e :: r1 =>
                if (e =? 117)%N then
                  match hex4 r1 with
                  | None => None
                  | Some (u, r2) =>
                      let lone := scan_string fuel r2 (u :: acc) in
                      if ((55296 <=? u) && (u <=? 56319))%N then
                        match strip_prefix [92; 117]%N r2 with
                        | Some r3 =>
                            match hex4 r3 with
                            | Some (v, r4) =>
                                if ((56320 <=? v) && (v <=? 57343))%N then
                                  scan_string fuel r4
                                    ((65536 + (u - 55296) * 1024
                                      + (v - 56320))%N :: acc)
                                else lone
                            | None => None
                            end
                        | None => lone
                        end
                      else lone
                  end
                else
                  match escape_char e with
                  | Some x => scan_string fuel r1 (x :: acc)
                  | None => None
                  end
            end
          else if (c <? 32)%N then None
          else scan_string fuel r (c :: acc)
      end
  end.

(** A number at the head of [s]: integer part, then an optional fraction
    and an optional exponent, each taken only when complete. *)
Definition scan_number (s : str) : option (json * str) :=
  let (neg, s1) := match s with
                   | c :: r => if (c =? 45)%N then (true, r) else (false, s)
                   | [] => (false, s)
                   end in
  let (ip, s2) := match s1 with
                  | c :: r => if (c =? 48)%N then ([0%N], r)
                              else take_digits s1
                  | [] => ([], s1)
                  end in
  match ip with
  | [] => None
  | _ =>
      let (fp, s3) := match s2 with
                      | c :: r =>
                          if (c =? 46)%N then
                            match take_digits r with
                            | ([], _) => ([], s2)
                            | (d, r') => (d, r')
                            end
                          else ([], s2)
                      | [] => ([], s2)
                      end in
      let '(ex, s4) :=
        match s3 with
        | c :: r =>
            if ((c =? 101) || (c =? 69))%N then
              let (eneg, r1) :=
                match r with
                | g :: r' => if (g =? 45)%N then (true, r')
                             else if (g =? 43)%N then (false, r')
                             else (false, r)
                | [] => (false, r)
                end in
              match take_digits r1 with
              | ([], _) => (None, s3)
              | (d, r') =>
                  (Some (if eneg then - digits_value d else digits_value d),
                   r')
              end
            else (None, s3)
        | [] => (None, s3)
        end in
      match fp, ex with
      | [], None =>
          Some (JInt (if neg then - digits_value ip else digits_value ip),
                s4)
      | _, _ =>
          let e := match ex with Some e => e | None => 0 end in
          Some (JFloat (float_of_decimal neg (digits_value (ip ++ fp))
                          (e - Z.of_nat (List.length fp))), s4)
      end
  end.

(** [dict[k] = v]: a key already present keeps its place. *)
Fixpoint dict_set (items : list (str * json)) (k : str) (v : json)
  : list (str * json) :=
  match items with
  | [] => [(k, v)]
  | (k', v') :: r =>
      if str_eqb k' k then (k', v) :: r else (k', v') :: dict_set r k v
  end.

(** Values, then the rest of an array after [[], and the rest of an
    object after [{]. *)
Fixpoint scan_once (fuel : nat) (s : str) : option (json * str) :=
  match fuel with
  | O => None
  | S fuel =>
      match s with
      | [] => None
      | c :: r =>
          if (c =? 34)%N then
            match scan_string (List.length s) r [] with
            | Some (t, r') => Some (JString t, r')
            | None => None
            end
          else if (c =? 123)%N then
            match skip_ws r with
            | d :: r' =>
                if (d =? 125)%N then Some (JObject [], r')
                else scan_members fuel (d :: r') []
            | [] => None
            end
          else if (c =? 91)%N then
            match skip_ws r with
            | d :: r' =>
                if (d =? 93)%N then Some (JArray [], r')
                else scan_elements fuel (d :: r') []
            | [] => None
            end
          else
            match strip_prefix (lit "null") s with
            | Some r' => Some (JNull, r')
            | None =>
            match strip_prefix (lit "true") s with
            | Some r' => Some (JBool true, r')
            | None =>
            match strip_prefix (lit "false") s with
            | Some r' => Some (JBool false, r')
            | None =>
            match scan_number s with
            | Some x => Some x
            | None =>
            match strip_prefix (lit "NaN") s with
            | Some r' => Some (JFloat S754_nan, r')
            | None =>
            match strip_prefix (lit "Infinity") s with
            | Some r' => Some (JFloat (S754_infinity false), r')
            | None =>
            match strip_prefix (lit "-Infinity") s with
            | Some r' => Some (JFloat (S754_infinity true), r')
            | None => None
            end end end end end end end
      end
  end
with scan_elements (fuel : nat) (s : str) (acc : list json)
  : option (json * str) :=
  match fuel with
  | O => None
  | S fuel =>
      match scan_once fuel s with
      | None => None
      | Some (v, r) =>
          match skip_ws r with
          | c :: r' =>
              if (c =? 44)%N then scan_elements fuel (skip_ws r') (v :: acc)
              else if (c =? 93)%N then Some (JArray (rev (v :: acc)), r')
              else None
          | [] => None
          end
      end
  end
with scan_members (fuel : nat) (s : str) (acc : list (str * json))
  : option (json * str) :=
  match fuel with
  | O => None
  | S fuel =>
      match s with
      | q :: r0 =>
          if (q =? 34)%N then
            match scan_string (List.length s) r0 [] with
            | None => None
            | Some (k, r1) =>
                match skip_ws r1 with
                | c :: r2 =>
                    if (c =? 58)%N then
                      match scan_once fuel (skip_ws r2) with
                      | None => None
                      | Some (v, r3) =>
                          let acc := dict_set acc k v in
                          match skip_ws r3 with
                          | d :: r4 =>
                              if (d =? 44)%N then
                                scan_members fuel (skip_ws r4) acc
                              else if (d =? 125)%N then
                                Some (JObject acc, r4)
                              else None
                          | [] => None
                          end
                      end
                    else None
                | [] => None
                end
            end
          else None
      | [] => None
      end
  end.

(** [json.loads(s)]: one value between optional white space, nothing
    after it. *)
Definition loads (s : str) : option json :=
  match scan_once (2 * List.length s + 2) (skip_ws s) with
  | Some (v, r) => match skip_ws r with [] => Some v | _ => None end
  | None => None
  end.

(** *** json.dumps of a str (ensure_ascii=True) *)

Definition hex_char (d : N) : N := if (d <? 10)%N then (48 + d)%N else (87 + d)%N.

Definition u_escape (u : N) : str :=
  [92; 117]%N
  ++ [hex_char (u / 4096); hex_char ((u / 256) mod 16);
      hex_char ((u / 16) mod 16); hex_char (u mod 16)]%N.

Definition dumps_char (c : N) : str :=
  if (c =? 34)%N then [92; 34]%N
  else if (c =? 92)%N then [92; 92]%N
  else if (c =? 10)%N then [92; 110]%N
  else if (c =? 13)%N then [92; 114]%N
  else if (c =? 9)%N then [92; 116]%N
  else if (c =? 12)%N then [92; 102]%N
  else if (c =? 8)%N then [92; 98]%N
  else if ((32 <=? c) && (c <=? 126))%N then [c]
  else if (c <? 65536)%N then u_escape c
  else
    let v := (c - 65536)%N in
    u_escape (55296 + v / 1024) ++ u_escape (56320 + v mod 1024).

Definition dumps (s : str) : str := dq ++ flat_map dumps_char s ++ dq.

(** *** int(s) for a str *)

(** Digits with single underscores between them. *)
Fixpoint int_digits (s : str) (acc : Z) (after_digit : bool) : option Z :=
  match s with
  | [] => if after_digit then Some acc else None
  | c :: r =>
      if is_digit c then int_digits r (10 * acc + Z.of_N (c - 48)) true
      else if (c =? 95)%N then
        if after_digit then int_digits r acc false else None
      else None
  end.

Definition int (s : str) : option Z :=
  match strip s with
  | c :: r =>
      if (c =? 45)%N then option_map Z.opp (int_digits r 0 false)
      else if (c =? 43)%N then int_digits r 0 false
      else int_digits (c :: r) 0 false
  | [] => None
  end.

(** *** textwrap.dedent *)

Definition is_blank (c : N) : bool := ((c =? 32) || (c =? 9))%N.

Fixpoint split_lines (s : str) : list str :=
  match s with
  | [] => [[]]
  | c :: r =>
      if (c =? 10)%N then [] :: split_lines r
      else match split_lines r with
           | l :: ls => (c :: l) :: ls
           | [] => [[c]]
           end
  end.

Fixpoint join_lines (ls : list str) : str :=
  match ls with
  | [] => []
  | [l] => l
  | l :: r => l ++ nl ++ join_lines r
  end.

Fixpoint indent_of (l : str) : str :=
  match l with
  | c :: r => if is_blank c then c :: indent_of r else []
  | [] => []
  end.

Fixpoint common_prefix (a b : str) : str :=
  match a, b with
  | x :: a', y :: b' => if (x =? y)%N then x :: common_prefix a' b' else []
  | _, _ => []
  end.

Definition dedent (text : str) : str :=
  let lines := List.map (fun l => if forallb is_blank l then [] else l)
                        (split_lines text) in
  let indents := List.map indent_of
                   (filter (fun l => PyStr.truthy l) lines) in
  let margin := match indents with
                | [] => []
                | i :: r => fold_left common_prefix r i
                end in
  join_lines
    (List.map (fun l => match strip_prefix margin l with
                        | Some r => r
                        | None => l
                        end) lines).

End CPython.

#[export] Instance cpython : PythonLib := {|
  json_loads := CPython.loads;
  json_dumps := CPython.dumps;
  int_of_str := CPython.int;
  dedent := CPython.dedent;
|}.

(** The defaults of the four environment variables. *)
#[export] Instance defaults : Settings := {|
  EXEC_URL := lit "http://sandbox:8088";
  CPU_SEC := 6;
  MEM_MB := 512;
  CPUS := 1;
|}.

(* ------------------------------------------------------------------ *)
(** ** What the specification calls the expected JSON triple *)

(** Membership of a key in a dict, as an option. *)
Fixpoint lookup (items : list (str * json)) (key : str) : option json :=
  match items with
  | [] => None
  | (k, v) :: r => if str_eqb k key then Some v else lookup r key
  end.

(** A JSON object that carries [stdout] and [stderr] as strings and
    [exit_code] as an integer. *)
Definition is_triple (v : json) (o e : str) (n : Z) : Prop :=
  exists items,
    v = JObject items
    /\ lookup items (lit "stdout") = Some (JString o)
    /\ lookup items (lit "stderr") = Some (JString e)
    /\ lookup items (lit "exit_code") = Some (JInt n).

(** The outcome of json.loads is such a triple. *)
Definition is_triple_of (parsed : option json) (o e : str) (n : Z) : Prop :=
  match parsed with
  | Some v => is_triple v o e n
  | None => False
  end.

(** json.loads raised, or returned a value that is not a dict. *)
Definition not_an_object (parsed : option json) : Prop :=
  match parsed with
  | Some (JObject _) => False
  | _ => True
  end.

(** All characters of [s] are white space ([s.strip()] is empty). *)
Definition blank (s : str) : bool := forallb isspace s.

(** [got] is [raw] cut to its first [cap] characters: a prefix of [raw],
    nothing appended, of length [min cap (len raw)]. *)
Definition capped (cap : Z) (raw got : str) : Prop :=
  got = firstn (Z.to_nat cap) raw
  /\ prefix got raw
  /\ len got = Z.min cap (len raw)
  /\ (len raw <= cap -> got = raw)
  /\ (cap < len raw -> len got = cap).

(** The result the broker makes up when the deadline passes. *)
Definition timeout_result : Execd.RunResp :=
  Execd.mkRunResp [] (lit "TIMEOUT") 124.

(** 20000 times the letter e with an acute accent (U+00E9), two bytes each
    in UTF-8. *)
Definition accented_20000 : str := repeat 233%N (Z.to_nat 20000).

(** The key is absent and [v] is the default, or the key holds [v]. *)
Definition absent_or (items : list (str * json)) (key : str)
  (default v : json) : Prop :=
  (lookup items key = None /\ v = default) \/ lookup items key = Some v.

(** *** Sample inputs *)

(** A client whose broker answers [d]. *)
Definition reply (d : data) : client := fun _ _ _ => Body d.

(** A request with the defaults of the tools. *)
Definition sample_req : Execd.RunReq :=
  Execd.mkRunReq (lit "while True: pass") 6 512 1.

(** A container that runs for ten seconds and prints nothing. *)
Definition slow_docker : Execd.RunReq -> Execd.process :=
  fun _ => Execd.Runs 10 None None 0.

(** What the wrapper prints for the script [echo hi; exit 7]: the object
    with stdout "hi\n", an empty stderr and exit_code 7, and a newline. *)
Definition wrapper_output : str :=
  lit "{" ++ dq ++ lit "stdout" ++ dq ++ lit ": " ++ dq ++ lit "hi\n" ++ dq
  ++ lit ", " ++ dq ++ lit "stderr" ++ dq ++ lit ": " ++ dq ++ dq
  ++ lit ", " ++ dq ++ lit "exit_code" ++ dq ++ lit ": 7}" ++ nl.

(** An object that is not the triple: only the key exit_code. *)
Definition partial_output : str :=
  lit "{" ++ dq ++ lit "exit_code" ++ dq ++ lit ": 5}" ++ nl.

(* ------------------------------------------------------------------ *)
(** ** Python dicts with [str] keys *)

Module Dict.
Section Ops.
Context {V : Type}.

(** A dict as its items in insertion order; the keys are distinct. *)
Definition dict := list (str * V).

(** [d.get(key)]; [None] when the key is absent. *)
Fixpoint get (d : dict) (key : str) : option V :=
  match d with
  | [] => None
  | (k, v) :: r => if str_eqb k key then Some v else get r key
  end.


(** [d[key] = v]: a key already present keeps its place. *)
Fixpoint setitem (d : dict) (key : str) (v : V) : dict :=
  match d with
  | [] => [(key, v)]
  | (k, w) :: r =>
      if str_eqb k key then (k, v) :: r else (k, w) :: setitem r key v
  end.

(** [d.pop(key, None)], for its effect on the dict. *)
Fixpoint pop (d : dict) (key : str) : dict :=
  match d with
  | [] => []
  | (k, w) :: r => if str_eqb k key then r else (k, w) :: pop r key
  end.

Definition keys (d : dict) : list str := List.map fst d.

End Ops.
Arguments dict V : clear implicits.
End Dict.

(* ------------------------------------------------------------------ *)
(** ** docker/mcp_server/utils/notepad_store.py and tools/notepad.py

    The in-process store, used when REDIS_URL is not set ([_r] is
    [None]); the state is the module-level dict [_STORE]. *)

Module Notepad.

Definition store := Dict.dict str.

(** [def write(key, value)]: [_STORE[key] = value[:1024]]. *)
Definition write (s : store) (key value : str) : store :=
  Dict.setitem s key (slice_to 1024 value).

(** [def read(key)]: [_STORE.get(key)]. *)
Definition read (s : store) (key : str) : option str := Dict.get s key.

(** [def clear(key)]: [_STORE.pop(key, None)]. *)
Definition clear (s : store) (key : str) : store := Dict.pop s key.

(** The three tools: the new store and the text returned. *)
Definition notepad_write (s : store) (key text : str) : store * str :=
  (write s key text, lit "ok").

Definition notepad_read (s : store) (key : str) : str :=
  match read s key with
  | Some val => if PyStr.truthy val then val else []
  | None => []
  end.

Definition notepad_clear (s : store) (key : str) : store * str :=
  (clear s key, lit "cleared").

(** A call of one of the two tools that change the store. *)
Inductive call :=
| Write (key text : str)
| Clear (key : str).

Definition apply (s : store) (c : call) : store :=
  match c with
  | Write k t => fst (notepad_write s k t)
  | Clear k => fst (notepad_clear s k)
  end.

(** The store after a sequence of calls, from the empty [_STORE]. *)
Definition after (calls : list call) : store := fold_left apply calls [].

(** What the latest call on [key] left, read off the calls themselves:
    the text of the last write, cut to 1024 characters, unless a clear
    came after it. *)
Fixpoint latest (calls : list call) (key : str) (acc : option str)
  : option str :=
  match calls with
  | [] => acc
  | Write k t :: r =>
      latest r key (if str_eqb k key then Some (slice_to 1024 t) else acc)
  | Clear k :: r => latest r key (if str_eqb k key then None else acc)
  end.

End Notepad.

(* ------------------------------------------------------------------ *)
(** ** docker/mcp_server/tools/__init__.py and the loop of server.py *)

Module Registry.







End Registry.

(* ------------------------------------------------------------------ *)
(** ** docker/mcp_server/utils/fhir_client.py and fhir_query of
       tools/fhir.py *)

Module Fhir.

(** [class ToolLimit(BaseModel)] of config.py. *)
Record ToolLimit := mkLimit {
  max_results : option Z;
  timeout_s : option Z;
}.

(** The exceptions that leave these functions. *)
Inductive exn :=
| AttributeError            (* a plain dict has no attribute timeout_s *)
| RequestFailed (e : str)   (* raised by the GET, raise_for_status or json *)
| NotSliceable.             (* data["entry"] is neither a list nor a str *)

Inductive result (A : Type) :=
| Value (a : A)
| Raise (e : exn).
Arguments Value {A} a.
Arguments Raise {A} e.

(** [s.rstrip('/')] and [s.lstrip('/')]. *)
Fixpoint lstrip_slash (s : str) : str :=
  match s with
  | c :: r => if (c =? 47)%N then lstrip_slash r else s
  | [] => []
  end.

Definition rstrip_slash (s : str) : str := rev (lstrip_slash (rev s)).

(** [f"{base.rstrip('/')}/{path.lstrip('/')}"]. *)
Definition join_url (base path : str) : str :=
  rstrip_slash base ++ lit "/" ++ lstrip_slash path.

(** [x[:n]] for a list. *)
Definition list_slice_to {A : Type} (n : Z) (l : list A) : list A :=
  if n <? 0 then firstn (Z.to_nat (Z.of_nat (List.length l) + n)) l
  else firstn (Z.to_nat n) l.

Section Client.
(** [settings.limits] and [settings.fhir_base_url]. *)
Variable limits : Dict.dict ToolLimit.
Variable fhir_base_url : str.
(** [client.get(url, ...)] with the client's timeout, then
    [raise_for_status()] and [json()]: the body, or the text of what was
    raised. *)
Variable GET : str -> Z -> str + json.
(** [json.dumps(data, separators=(",", ":"))]. *)
Variable dumps : json -> str.

(** [settings.limits.get("fhir_query", {}).timeout_s or 30]: without an
    entry for the tool, the attribute is looked up on the empty dict. *)
Definition get_timeout : result Z :=
  match Dict.get limits (lit "fhir_query") with
  | None => Raise AttributeError
  | Some lim =>
      Value (match timeout_s lim with
             | Some t => if t =? 0 then 30 else t
             | None => 30
             end)
  end.

(** [def http_get(path, params=None)]. *)
Definition http_get (path : str) : result json :=
  let url := join_url fhir_base_url path in
  match get_timeout with
  | Raise e => Raise e
  | Value t =>
      match GET url t with
      | inl e => Raise (RequestFailed e)
      | inr body => Value body
      end
  end.

(** [def _limit_for(tool_name)]. *)
Definition _limit_for (tool_name : str) : option ToolLimit :=
  Dict.get limits tool_name.

(** [data["entry"][: n]]. *)
Definition slice_entry (v : json) (n : Z) : result json :=
  match v with
  | JArray l => Value (JArray (list_slice_to n l))
  | JString s => Value (JString (slice_to n s))
  | _ => Raise NotSliceable
  end.

(** The bundle after the [if lim and ... "entry" in data] statement. *)
Definition truncate (data : json) : result json :=
  match _limit_for (lit "fhir_query") with
  | Some lim =>
      match max_results lim with
      | Some n =>
          if n =? 0 then Value data
          else
            match data with
            | JObject items =>
                match Dict.get items (lit "entry") with
                | Some entry =>
                    match slice_entry entry n with
                    | Value cut =>
                        Value (JObject (Dict.setitem items (lit "entry") cut))
                    | Raise e => Raise e
                    end
                | None => Value data
                end
            | _ => Value data
            end
      | None => Value data
      end
  | None => Value data
  end.

(** [def fhir_query(path)]. *)
Definition fhir_query (path : str) : result str :=
  match http_get path with
  | Raise e => Raise e
  | Value data =>
      match truncate data with
      | Raise e => Raise e
      | Value data' => Value (dumps data')
      end
  end.

End Client.
End Fhir.

(* ------------------------------------------------------------------ *)
(** ** docker/sandbox/scripts/test.py *)

Module Mixer.

(** [MASK = (1 << 64) - 1]. *)
Definition MASK : Z := Z.shiftl 1 64 - 1.

(** The body of the loop, for the loop index [i]. *)
Definition step (x i : Z) : Z :=
  let x := Z.land (x + 0x9E3779B97F4A7C15) MASK in
  let x := Z.lxor x (Z.shiftr x 30) in
  let x := Z.land (x * 0xBF58476D1CE4E5B9) MASK in
  let x := Z.lxor x (Z.shiftr x 27) in
  let x := Z.land (x * 0x94D049BB133111EB) MASK in
  let x := Z.lxor x (Z.shiftr x 31) in
  let k := 13 + Z.land i 31 in
  let x := Z.land (Z.lor (Z.shiftl x k) (Z.shiftr x (64 - k))) MASK in
  let i_mix :=
    Z.land (i * 6364136223846793005 + 1442695040888963407) MASK in
  Z.lxor x i_mix.

(** [range(rounds)]. *)
Definition range (n : Z) : list Z := List.map Z.of_nat (seq 0 (Z.to_nat n)).

(** [def func(seed, rounds=50_000)]. *)
Definition func (seed rounds : Z) : Z :=
  fold_left step (range rounds) (Z.land seed MASK).

(** A value of 64 bits. *)
Definition u64 (x : Z) : Prop := 0 <= x < 2 ^ 64.

End Mixer.

(* ------------------------------------------------------------------ *)
(** ** Lemmas on strings *)

Section StrLemmas.

Lemma len_nonneg (s : str) : 0 <= len s.
Proof. unfold len. lia. Qed.

Lemma len_app (a b : str) : len (a ++ b) = len a + len b.
Proof. unfold len. rewrite length_app. lia. Qed.

Lemma slice_to_firstn (n : Z) (s : str) :
  0 <= n -> slice_to n s = firstn (Z.to_nat n) s.
Proof.
  intros Hn. unfold slice_to.
  destruct (n <? 0) eqn:E; [apply Z.ltb_lt in E; lia | reflexivity].
Qed.

Lemma slice_to_len (n : Z) (s : str) :
  0 <= n -> len (slice_to n s) = Z.min n (len s).
Proof.
  intros Hn. rewrite slice_to_firstn by assumption.
  unfold len. rewrite length_firstn. lia.
Qed.

Lemma slice_to_all (n : Z) (s : str) :
  0 <= n -> len s <= n -> slice_to n s = s.
Proof.
  intros Hn Hs. rewrite slice_to_firstn by assumption.
  apply firstn_all2. unfold len in Hs. lia.
Qed.

Lemma slice_to_prefix (n : Z) (s : str) :
  0 <= n -> prefix (slice_to n s) s.
Proof.
  intros Hn. exists (skipn (Z.to_nat n) s).
  rewrite slice_to_firstn by assumption.
  symmetry. apply firstn_skipn.
Qed.

Lemma lstrip_nil_iff (s : str) : lstrip s = [] <-> blank s = true.
Proof.
  unfold blank. induction s as [|c r IH]; simpl.
  - tauto.
  - destruct (isspace c); simpl.
    + exact IH.
    + split; discriminate.
Qed.

Lemma lstrip_head (s : str) :
  match lstrip s with
  | [] => True
  | c :: _ => isspace c = false
  end.
Proof.
  induction s as [|c r IH]; simpl; [exact I|].
  destruct (isspace c) eqn:E; [exact IH | exact E].
Qed.

Lemma blank_rev (s : str) : blank (rev s) = blank s.
Proof.
  unfold blank. induction s as [|c r IH]; simpl; [reflexivity|].
  rewrite forallb_app, IH. simpl. rewrite andb_true_r. apply andb_comm.
Qed.

Lemma lstrip_suffix (s : str) : exists p, s = p ++ lstrip s /\ blank p = true.
Proof.
  induction s as [|c r [p [Hp Hb]]]; simpl.
  - exists []. split; reflexivity.
  - destruct (isspace c) eqn:E.
    + exists (c :: p). split.
      * simpl. f_equal. exact Hp.
      * unfold blank in *. simpl. rewrite E. exact Hb.
    + exists []. split; reflexivity.
Qed.

Lemma blank_lstrip (s : str) : blank (lstrip s) = blank s.
Proof.
  destruct (lstrip_suffix s) as [p [Hp Hb]].
  rewrite Hp at 2. unfold blank in *. rewrite forallb_app, Hb. reflexivity.
Qed.

(** [s.strip()] is empty exactly when [s] holds white space only. *)
Lemma strip_nil_iff (s : str) : strip s = [] <-> blank s = true.
Proof.
  unfold strip, rstrip. split.
  - intros H.
    assert (H1 : lstrip (rev (lstrip s)) = []).
    { destruct (lstrip (rev (lstrip s))) as [|c l]; [reflexivity|].
      simpl in H. destruct (rev l); discriminate. }
    apply lstrip_nil_iff in H1. rewrite blank_rev, blank_lstrip in H1.
    exact H1.
  - intros H. apply lstrip_nil_iff in H. rewrite H. reflexivity.
Qed.

Lemma truthy_strip (s : str) : PyStr.truthy (strip s) = negb (blank s).
Proof.
  destruct (blank s) eqn:E.
  - apply strip_nil_iff in E. rewrite E. reflexivity.
  - destruct (strip s) eqn:S; [|reflexivity].
    apply strip_nil_iff in S. congruence.
Qed.

Lemma strip_nil : strip [] = [].
Proof. reflexivity. Qed.

Lemma utf8_len_repeat (c : N) (n : nat) :
  utf8_len (repeat c n) = utf8_width c * Z.of_nat n.
Proof.
  induction n as [|n IH]; [simpl; lia|].
  change (utf8_len (repeat c (S n)))
    with (utf8_width c + utf8_len (repeat c n)).
  rewrite IH. lia.
Qed.

Lemma lookup_get (items : list (str * json)) (k : str) (v d : json) :
  lookup items k = Some v -> get items k d = v.
Proof.
  induction items as [|[k' v'] r IH]; simpl; [discriminate|].
  destruct (str_eqb k' k); [intros [= ->]; reflexivity | exact IH].
Qed.

End StrLemmas.

(* ------------------------------------------------------------------ *)
(** ** The broker: deadline, timeout result, output cap *)

Section Broker.
Import Execd.
Variable T : Z.                     (* DEFAULT_TIMEOUT *)

Lemma capped_slice (raw : str) : capped OUTPUT_CAP raw (slice_to OUTPUT_CAP raw).
Proof.
  assert (H0 : 0 <= OUTPUT_CAP) by (unfold OUTPUT_CAP; lia).
  unfold capped. split; [|split; [|split; [|split]]].
  - apply slice_to_firstn; exact H0.
  - apply slice_to_prefix; exact H0.
  - apply slice_to_len; exact H0.
  - intros H. apply slice_to_all; assumption.
  - intros H. rewrite slice_to_len by exact H0. lia.
Qed.

Lemma subprocess_run_late (t : Z) (d : Q) (o e : option str) (rc : Z) :
  (inject_Z t < d)%Q -> subprocess_run (Runs d o e rc) t = TimeoutExpired.
Proof.
  intros H. unfold subprocess_run.
  destruct (Qle_bool d (inject_Z t)) eqn:E; [|reflexivity].
  apply Qle_bool_iff in E. exfalso. exact (Qlt_not_le _ _ H E).
Qed.

Lemma subprocess_run_in_time (t : Z) (d : Q) (o e : option str) (rc : Z) :
  (d <= inject_Z t)%Q ->
  subprocess_run (Runs d o e rc) t = CompletedProcess o e rc.
Proof.
  intros H. unfold subprocess_run.
  apply Qle_bool_iff in H. rewrite H. reflexivity.
Qed.

(** C1. A process that is still running when the effective deadline
    passes makes the handler return exactly exit_code 124, stderr
    "TIMEOUT" and an empty stdout.  On every path, a response of the handler is
    either this one or carries the return code of the process itself (one
    that ended within the deadline): 124 is the only made-up code. *)
Theorem run_past_deadline (req : RunReq) (d : Q) (o e : option str) (rc : Z) :
  (inject_Z (deadline T req) < d)%Q ->
  run T req (Runs d o e rc) = Ok (mkRunResp [] (lit "TIMEOUT") 124)
  /\ (forall (q : RunReq) (p : process) (r : RunResp),
        run T q p = Ok r ->
        r = mkRunResp [] (lit "TIMEOUT") 124
        \/ exists d' o' e',
             p = Runs d' o' e' (exit_code r)
             /\ (d' <= inject_Z (deadline T q))%Q).
Proof.
  intros H. split.
  - unfold run. rewrite subprocess_run_late by exact H. reflexivity.
  - intros q p r Hr. unfold run in Hr.
    destruct p as [m | m | d' o' e' rc']; simpl in Hr; try discriminate.
    destruct (Qle_bool d' (inject_Z (deadline T q))) eqn:E.
    + right. injection Hr as <-. simpl.
      exists d', o', e'. split; [reflexivity|].
      apply Qle_bool_iff. exact E.
    + left. injection Hr as <-. reflexivity.
Qed.

(** C7. The timeout handed to the process is min(timeout_s, ceiling): it
    never exceeds the requested timeout nor the ceiling; a process that
    outlasts either of the two is timed out, and one that ends within both
    is answered with its own streams and return code. *)
Theorem deadline_is_min (req : RunReq) (d : Q) (o e : option str) (rc : Z) :
  deadline T req = Z.min (timeout_s req) T
  /\ deadline T req <= timeout_s req
  /\ deadline T req <= T
  /\ (T <= timeout_s req -> deadline T req = T)
  /\ (timeout_s req <= T -> deadline T req = timeout_s req)
  /\ ((inject_Z (timeout_s req) < d)%Q ->
      run T req (Runs d o e rc) = Ok timeout_result)
  /\ ((inject_Z T < d)%Q ->
      run T req (Runs d o e rc) = Ok timeout_result)
  /\ ((d <= inject_Z (timeout_s req))%Q -> (d <= inject_Z T)%Q ->
      run T req (Runs d o e rc)
      = Ok (mkRunResp (slice_to OUTPUT_CAP (or_empty o))
                      (slice_to OUTPUT_CAP (or_empty e)) rc)).
Proof.
  unfold deadline.
  assert (Hlate : forall t, Z.min (timeout_s req) T <= t ->
                            (inject_Z t < d)%Q ->
                  run T req (Runs d o e rc) = Ok timeout_result).
  { intros t Ht Hd. unfold run, deadline.
    rewrite subprocess_run_late; [reflexivity|].
    eapply Qle_lt_trans; [|exact Hd].
    rewrite <- Zle_Qle. exact Ht. }
  repeat split; try lia.
  - intros H. apply (Hlate (timeout_s req)); [lia | exact H].
  - intros H. apply (Hlate T); [lia | exact H].
  - intros H1 H2. unfold run, deadline.
    rewrite subprocess_run_in_time; [reflexivity|].
    destruct (Z.min_spec (timeout_s req) T) as [[_ ->] | [_ ->]]; assumption.
Qed.

(** C3 (amended). For a process that ends within the deadline, stdout and
    stderr are each cut to their first 32768 characters when longer and
    returned unchanged otherwise; the cut appends nothing, cannot fail,
    and leaves the return code as it is. *)
Theorem run_caps_output (req : RunReq) (d : Q) (o e : option str) (rc : Z) :
  (d <= inject_Z (deadline T req))%Q ->
  exists r : RunResp,
    run T req (Runs d o e rc) = Ok r
    /\ exit_code r = rc
    /\ capped 32768 (or_empty o) (stdout r)
    /\ capped 32768 (or_empty e) (stderr r).
Proof.
  intros H. unfold run. rewrite subprocess_run_in_time by exact H.
  eexists. split; [reflexivity|]. simpl.
  split; [reflexivity|]. split; apply capped_slice.
Qed.

End Broker.

(** C3 as stated fails: a captured stdout of 40000 bytes (20000 two-byte
    characters) is above the 32768-byte cap and is returned whole. *)
Lemma run_cap_counts_characters :
  utf8_len accented_20000 = 40000
  /\ Execd.run 7 (Execd.mkRunReq [] 6 512 1)
       (Execd.Runs 1 (Some accented_20000) None 0)
     = Execd.Ok (Execd.mkRunResp accented_20000 [] 0)
  /\ 32768 < utf8_len accented_20000.
Proof.
  assert (U : utf8_len accented_20000 = 40000).
  { unfold accented_20000. rewrite utf8_len_repeat.
    rewrite Z2Nat.id by lia. reflexivity. }
  split; [exact U|]. split; [|rewrite U; lia].
  unfold Execd.run. rewrite subprocess_run_in_time by (vm_compute; discriminate).
  assert (L : len accented_20000 <= Execd.OUTPUT_CAP).
  { unfold accented_20000, len, Execd.OUTPUT_CAP. rewrite repeat_length.
    rewrite Z2Nat.id by lia. lia. }
  simpl or_empty. rewrite (slice_to_all _ accented_20000); [reflexivity| |exact L].
  unfold Execd.OUTPUT_CAP. lia.
Qed.

(* ------------------------------------------------------------------ *)
(** ** The direct-code tool *)

Section DirectCode.
Import PythonExec.
Context `{PythonLib} `{Settings}.

Lemma snippet_len (s : str) :
  len (if 800 <? len s then slice_to 800 s ++ ellipsis else s) <= 801.
Proof.
  destruct (800 <? len s) eqn:E.
  - rewrite len_app, slice_to_len by lia. unfold ellipsis, len at 2. simpl. lia.
  - apply Z.ltb_ge in E. lia.
Qed.

(** The message of the non-zero branch, through the white-space test. *)
Lemma failure_msg_eq (n : Z) (err : str) :
  failure_msg n err
  = (lit "sandbox failed (exit " ++ of_int n ++ lit ")")
    ++ (if blank err then []
        else lit ": "
             ++ (if 800 <? len (strip err)
                 then slice_to 800 (strip err) ++ ellipsis
                 else strip err)).
Proof.
  unfold failure_msg. rewrite truthy_strip.
  destruct (blank err); simpl negb; cbv iota.
  - rewrite app_nil_r. reflexivity.
  - rewrite <- !app_assoc. reflexivity.
Qed.

Lemma normalize_blank (d : data) :
  d_exit_code d = Some 0 ->
  blank (or_empty (d_stdout d)) = true ->
  normalize d = ToolError no_stdout_msg.
Proof.
  intros He Hb. unfold normalize. rewrite He. simpl negb. cbv iota.
  rewrite truthy_strip, Hb. reflexivity.
Qed.

(** C2 (amended). With exit code zero: when stdout is empty or white space
    only and stderr is empty, the tool raises the no-stdout error; when
    stdout holds a character that is not white space, the result is
    returned without error, with stdout and stderr as reported, exit code
    0 and the parsed JSON (or none). *)
Theorem python_exec_zero_exit (post : client) (code : option str) (d : data) :
  post (EXEC_URL ++ lit "/run") (CPU_SEC + 3) (make_payload code) = Body d ->
  d_exit_code d = Some 0 ->
  (blank (or_empty (d_stdout d)) = true ->
   or_empty (d_stderr d) = [] ->
   python_exec post code = ToolError no_stdout_msg)
  /\ (blank (or_empty (d_stdout d)) = false ->
      python_exec post code
      = Return (mkResult (or_empty (d_stdout d)) (or_empty (d_stderr d)) 0
                  (match json_loads (or_empty (d_stdout d)) with
                   | Some v => v
                   | None => JNull
                   end))).
Proof.
  intros Hpost Hexit. unfold python_exec. rewrite Hpost.
  unfold normalize. rewrite Hexit. simpl negb. cbv iota.
  rewrite truthy_strip. split.
  - intros Hb _. rewrite Hb. reflexivity.
  - intros Hb. rewrite Hb. reflexivity.
Qed.

(** C6 (amended). For a broker response with a non-zero exit code (1 when
    the key is missing) the tool raises an error whose message is
    "sandbox failed (exit N)" followed, if and only if stderr holds a
    character that is not white space, by ": " and an excerpt: stderr
    stripped of surrounding white space when that has at most 800
    characters, else its first 800 characters and the mark U+2026. *)
Theorem python_exec_failure (post : client) (code : option str) (d : data)
  (n : Z) :
  post (EXEC_URL ++ lit "/run") (CPU_SEC + 3) (make_payload code) = Body d ->
  n = match d_exit_code d with Some c => c | None => 1 end ->
  n <> 0 ->
  let err := or_empty (d_stderr d) in
  exists tail : str,
    python_exec post code
    = ToolError ((lit "sandbox failed (exit " ++ of_int n ++ lit ")") ++ tail)
    /\ contains ((lit "sandbox failed (exit " ++ of_int n ++ lit ")") ++ tail)
                (of_int n)
    /\ (blank err = true -> tail = [])
    /\ (blank err = false ->
        exists excerpt : str,
          tail = lit ": " ++ excerpt
          /\ excerpt <> []
          /\ len excerpt <= 801
          /\ (len (strip err) <= 800 -> excerpt = strip err)
          /\ (800 < len (strip err) ->
              excerpt = firstn 800 (strip err) ++ ellipsis)).
Proof.
  intros Hpost Hn Hnz err.
  exists (if blank err then []
          else lit ": "
               ++ (if 800 <? len (strip err)
                   then slice_to 800 (strip err) ++ ellipsis
                   else strip err)).
  split; [|split; [|split]].
  - unfold python_exec. rewrite Hpost. unfold normalize. rewrite <- Hn.
    destruct (n =? 0) eqn:E; [apply Z.eqb_eq in E; contradiction|].
    simpl negb. cbv iota. rewrite failure_msg_eq. reflexivity.
  - exists (lit "sandbox failed (exit "). eexists.
    rewrite <- !app_assoc. reflexivity.
  - intros Hb. rewrite Hb. reflexivity.
  - intros Hb. rewrite Hb. eexists. split; [reflexivity|].
    split; [|split; [apply snippet_len|split]].
    + assert (S : strip err <> []).
      { intros S. apply strip_nil_iff in S. congruence. }
      destruct (800 <? len (strip err)).
      * intros C. apply app_eq_nil in C. destruct C as [_ C]. discriminate.
      * exact S.
    + intros L. apply Z.ltb_ge in L. rewrite L. reflexivity.
    + intros L. apply Z.ltb_lt in L. rewrite L.
      rewrite slice_to_firstn by lia. reflexivity.
Qed.

(** C10. An empty string given as code is treated exactly like no code:
    the payload is the same, its code is the introspection program (which
    is not empty) passed through dedent, and so is the whole call,
    whatever the broker answers. *)
Theorem python_exec_empty_code (post : client) :
  effective_code (Some []) = introspection
  /\ effective_code None = introspection
  /\ introspection <> []
  /\ make_payload (Some []) = make_payload None
  /\ p_code (make_payload (Some [])) = dedent introspection
  /\ python_exec post (Some []) = python_exec post None.
Proof.
  repeat split. discriminate.
Qed.

End DirectCode.

(* ------------------------------------------------------------------ *)
(** ** The shell tool *)

Section Shell.
Import ShellExec.
Context `{PythonLib} `{Settings}.

Lemma unpack_triple (out err o e : str) (n : Z) :
  is_triple_of (json_loads out) o e n ->
  unpack out err = Some (mkResult o (if PyStr.truthy e then e else err) n).
Proof.
  unfold is_triple_of, is_triple.
  destruct (json_loads out) as [v|] eqn:J; [|intros []].
  intros [items [-> [Ho [He Hn]]]].
  unfold unpack. rewrite J.
  rewrite (lookup_get _ _ _ _ Ho), (lookup_get _ _ _ _ He),
    (lookup_get _ _ _ _ Hn).
  simpl. destruct e; reflexivity.
Qed.

Lemma unwrap_returns (d : data) : exists r, unwrap d = Return r.
Proof.
  unfold unwrap.
  destruct (negb (PyStr.truthy (strip (or_empty (d_stdout d)))));
    [eexists; reflexivity|].
  destruct (unpack _ _); eexists; reflexivity.
Qed.

(** C4. When the outer stdout (stripped, as the tool hands it to
    json.loads) parses as the expected triple, the tool returns the inner
    stdout and exit code, and the inner stderr, or the outer stderr when
    the inner one is empty. *)
Theorem shell_exec_unwraps_triple (post : client) (script : str)
  (stdin : option str) (timeout_s : option Z) (d : data)
  (o e : str) (n : Z) :
  json_loads [] = None ->
  post (EXEC_URL ++ lit "/run") (int_or timeout_s CPU_SEC + 3)
       (make_payload script stdin timeout_s) = Body d ->
  is_triple_of (json_loads (strip (or_empty (d_stdout d)))) o e n ->
  shell_exec post script stdin timeout_s
  = Return (mkResult o (if str_eqb e [] then or_empty (d_stderr d) else e) n).
Proof.
  intros Hnil Hpost Ht. unfold shell_exec. rewrite Hpost. unfold unwrap.
  destruct (strip (or_empty (d_stdout d))) as [|c r] eqn:S.
  - rewrite Hnil in Ht. destruct Ht.
  - simpl negb. cbv iota.
    rewrite (unpack_triple _ _ o e n Ht).
    destruct e; reflexivity.
Qed.

(** C5. When the outer stdout is empty the tool raises nothing and
    returns an empty stdout, the outer stderr and exit code 0, whereas the
    direct-code tool raises its no-stdout error on the same answer of the
    broker when it has exit code 0 and an empty stderr. *)
Theorem shell_exec_empty_stdout (post : client) (script : str)
  (stdin : option str) (timeout_s : option Z) (d : data) :
  post (EXEC_URL ++ lit "/run") (int_or timeout_s CPU_SEC + 3)
       (make_payload script stdin timeout_s) = Body d ->
  or_empty (d_stdout d) = [] ->
  shell_exec post script stdin timeout_s
  = Return (mkResult [] (or_empty (d_stderr d)) 0)
  /\ (forall (post' : client) (code : option str),
        post' (EXEC_URL ++ lit "/run") (CPU_SEC + 3)
              (PythonExec.make_payload code) = Body d ->
        d_exit_code d = Some 0 ->
        or_empty (d_stderr d) = [] ->
        PythonExec.python_exec post' code
        = ToolError PythonExec.no_stdout_msg).
Proof.
  intros Hpost He. split.
  - unfold shell_exec. rewrite Hpost. unfold unwrap. rewrite He. reflexivity.
  - intros post' code Hp Hz _. unfold PythonExec.python_exec. rewrite Hp.
    apply normalize_blank; [exact Hz | rewrite He; reflexivity].
Qed.

(** C8 (amended). Once the broker has answered, the tool never raises.
    When the outer stdout, stripped of surrounding white space, is not
    valid JSON or is JSON that is not an object, the tool returns that
    stripped text as stdout, the outer stderr, and exit code 0. *)
Theorem shell_exec_fallback (post : client) (script : str)
  (stdin : option str) (timeout_s : option Z) (d : data) :
  post (EXEC_URL ++ lit "/run") (int_or timeout_s CPU_SEC + 3)
       (make_payload script stdin timeout_s) = Body d ->
  (exists r, shell_exec post script stdin timeout_s = Return r)
  /\ (not_an_object (json_loads (strip (or_empty (d_stdout d)))) ->
      shell_exec post script stdin timeout_s
      = Return (mkResult (strip (or_empty (d_stdout d)))
                         (or_empty (d_stderr d)) 0)).
Proof.
  intros Hpost. unfold shell_exec. rewrite Hpost. split.
  - apply unwrap_returns.
  - intros Hn. unfold unwrap.
    destruct (strip (or_empty (d_stdout d))) as [|c r] eqn:S;
      [reflexivity|].
    simpl negb. cbv iota. unfold unpack.
    destruct (json_loads (c :: r)) as [[]|]; try reflexivity.
    destruct Hn.
Qed.

(** C9. When the wrapper outlasts the broker's deadline, the broker
    answers an empty stdout, stderr "TIMEOUT", exit code 124, and the shell tool
    returns exit code 0 with stderr "TIMEOUT": the outer stdout is empty,
    and the outer exit code, whatever it is, is never read. *)
Theorem shell_exec_timeout_is_success (T : Z)
  (docker : Execd.RunReq -> Execd.process) (script : str)
  (stdin : option str) (timeout_s : option Z)
  (dur : Q) (o e : option str) (rc : Z) :
  let req := Wire.request_of (make_payload script stdin timeout_s) in
  Execd.RunReq_valid req = true ->
  docker req = Execd.Runs dur o e rc ->
  (inject_Z (Execd.deadline T req) < dur)%Q ->
  Wire.serve T docker (EXEC_URL ++ lit "/run") (int_or timeout_s CPU_SEC + 3)
             (make_payload script stdin timeout_s)
  = Body (mkData (Some []) (Some (lit "TIMEOUT")) (Some 124))
  /\ shell_exec (Wire.serve T docker) script stdin timeout_s
     = Return (mkResult [] (lit "TIMEOUT") 0)
  /\ (forall code : option Z,
        unwrap (mkData (Some []) (Some (lit "TIMEOUT")) code)
        = Return (mkResult [] (lit "TIMEOUT") 0)).
Proof.
  intros req Hv Hd Hlate.
  assert (S : Wire.serve T docker (EXEC_URL ++ lit "/run")
                (int_or timeout_s CPU_SEC + 3)
                (make_payload script stdin timeout_s)
              = Body (mkData (Some []) (Some (lit "TIMEOUT")) (Some 124))).
  { unfold Wire.serve. fold req. rewrite Hv, Hd.
    unfold Execd.run. rewrite subprocess_run_late by exact Hlate.
    reflexivity. }
  split; [exact S|]. split; [|reflexivity].
  unfold shell_exec. rewrite S. reflexivity.
Qed.

End Shell.

(* ------------------------------------------------------------------ *)
(** ** The theorems at concrete inputs *)

(** The default request, a ceiling of 7 s and a process that needs 10 s. *)
Lemma run_past_deadline_witness :
  (inject_Z (Execd.deadline 7 sample_req) < 10)%Q
  /\ Execd.run 7 sample_req (Execd.Runs 10 None None 0)
     = Execd.Ok (Execd.mkRunResp [] (lit "TIMEOUT") 124).
Proof.
  split; [reflexivity|].
  apply (proj1 (run_past_deadline 7 sample_req 10 None None 0 eq_refl)).
Defined.

Lemma deadline_is_min_witness :
  Execd.deadline 7 sample_req = 6
  /\ ((7 < 10)%Q ->
      Execd.run 7 sample_req (Execd.Runs 10 None None 0) = Execd.Ok timeout_result)
  /\ ((5 <= 6)%Q -> (5 <= 7)%Q ->
      Execd.run 7 sample_req (Execd.Runs 5 (Some (lit "hi")) None 3)
      = Execd.Ok (Execd.mkRunResp (lit "hi") [] 3)).
Proof.
  split; [reflexivity|]. split.
  - intros L.
    exact (proj1 (proj2 (proj2 (proj2 (proj2 (proj2 (proj2
             (deadline_is_min 7 sample_req 10 None None 0))))))) L).
  - intros L1 L2.
    exact (proj2 (proj2 (proj2 (proj2 (proj2 (proj2 (proj2
             (deadline_is_min 7 sample_req 5 (Some (lit "hi")) None 3)))))))
             L1 L2).
Defined.

Lemma run_caps_output_witness :
  (5 <= inject_Z (Execd.deadline 7 sample_req))%Q
  /\ exists r : Execd.RunResp,
       Execd.run 7 sample_req (Execd.Runs 5 (Some (lit "hi")) None 3)
       = Execd.Ok r
       /\ Execd.exit_code r = 3
       /\ capped 32768 (lit "hi") (Execd.stdout r)
       /\ capped 32768 [] (Execd.stderr r).
Proof.
  assert (L : (5 <= inject_Z (Execd.deadline 7 sample_req))%Q)
    by (unfold Qle; simpl; lia).
  split; [exact L|].
  exact (run_caps_output 7 sample_req 5 (Some (lit "hi")) None 3 L).
Defined.

(** The program [print()] leaves a lone newline on stdout and is rejected;
    [print("hi")] is returned. *)
Lemma python_exec_zero_exit_witness :
  PythonExec.python_exec (reply (mkData (Some nl) (Some []) (Some 0)))
    (Some (lit "print()"))
  = ToolError PythonExec.no_stdout_msg
  /\ PythonExec.python_exec
       (reply (mkData (Some (lit "hi" ++ nl)) (Some []) (Some 0)))
       (Some (lit "print('hi')"))
     = Return (PythonExec.mkResult (lit "hi" ++ nl) [] 0 JNull).
Proof.
  split.
  - exact (proj1 (@python_exec_zero_exit cpython defaults
                    (reply (mkData (Some nl) (Some []) (Some 0)))
                    (Some (lit "print()")) _ eq_refl eq_refl)
                 eq_refl eq_refl).
  - exact (proj2 (@python_exec_zero_exit cpython defaults
                    (reply (mkData (Some (lit "hi" ++ nl)) (Some []) (Some 0)))
                    (Some (lit "print('hi')")) _ eq_refl eq_refl)
                 eq_refl).
Defined.

(** C2 as stated fails: with exit code 0, a stdout that is not empty (one
    newline) and an empty stderr, the tool raises the no-stdout error. *)
Lemma python_exec_rejects_blank_stdout :
  let d := mkData (Some nl) (Some []) (Some 0) in
  d_exit_code d = Some 0
  /\ or_empty (d_stdout d) <> []
  /\ or_empty (d_stderr d) = []
  /\ PythonExec.python_exec (reply d) (Some (lit "print()"))
     = ToolError PythonExec.no_stdout_msg.
Proof.
  simpl. repeat split. discriminate.
Qed.

(** Exit code 2 and a stderr of two words between blank lines. *)
Lemma python_exec_failure_witness :
  exists tail : str,
    PythonExec.python_exec
      (reply (mkData None (Some (nl ++ lit "boom bang" ++ nl)) (Some 2)))
      None
    = ToolError (lit "sandbox failed (exit 2)" ++ tail)
    /\ tail = lit ": boom bang".
Proof.
  destruct (@python_exec_failure cpython defaults
              (reply (mkData None (Some (nl ++ lit "boom bang" ++ nl)) (Some 2)))
              None _ 2 eq_refl eq_refl ltac:(discriminate))
    as [tail [E [_ [_ B]]]].
  exists tail. split; [exact E|].
  destruct (B eq_refl) as [excerpt [-> [_ [_ [S _]]]]].
  rewrite (S ltac:(vm_compute; discriminate)). reflexivity.
Defined.

(** C6 as stated fails: with exit code 1 and a stderr that is not empty
    (one newline), the message carries no excerpt at all. *)
Lemma python_exec_failure_blank_stderr :
  let d := mkData None (Some nl) (Some 1) in
  or_empty (d_stderr d) <> []
  /\ PythonExec.python_exec (reply d) None
     = ToolError (lit "sandbox failed (exit 1)").
Proof.
  simpl. split; [discriminate | reflexivity].
Qed.

(** The script [echo hi; exit 7]: the inner exit code 7 is returned. *)
Lemma shell_exec_unwraps_triple_witness :
  json_loads [] = None
  /\ is_triple_of
       (json_loads (strip wrapper_output)) (lit "hi" ++ nl) [] 7
  /\ ShellExec.shell_exec
       (reply (mkData (Some wrapper_output) (Some (lit "note")) (Some 0)))
       (lit "echo hi; exit 7") None None
     = Return (ShellExec.mkResult (lit "hi" ++ nl) (lit "note") 7).
Proof.
  assert (Ht : is_triple_of
                 (json_loads (strip wrapper_output)) (lit "hi" ++ nl) [] 7).
  { vm_compute. eexists. repeat split; reflexivity. }
  split; [reflexivity|]. split; [exact Ht|].
  exact (@shell_exec_unwraps_triple cpython defaults
           (reply (mkData (Some wrapper_output) (Some (lit "note")) (Some 0)))
           (lit "echo hi; exit 7") None None _ (lit "hi" ++ nl) [] 7
           eq_refl eq_refl Ht).
Defined.

(** The script [true]: nothing on the outer stdout. *)
Lemma shell_exec_empty_stdout_witness :
  ShellExec.shell_exec
    (reply (mkData (Some []) (Some (lit "warn")) (Some 0)))
    (lit "true") None None
  = Return (ShellExec.mkResult [] (lit "warn") 0).
Proof.
  exact (proj1 (@shell_exec_empty_stdout cpython defaults
                  (reply (mkData (Some []) (Some (lit "warn")) (Some 0)))
                  (lit "true") None None _ eq_refl eq_refl)).
Defined.

(** An outer stdout that is plain text. *)
Lemma shell_exec_fallback_witness :
  not_an_object (json_loads (strip (lit "hi" ++ nl)))
  /\ ShellExec.shell_exec
       (reply (mkData (Some (lit "hi" ++ nl)) (Some (lit "warn")) (Some 0)))
       (lit "echo hi") None None
     = Return (ShellExec.mkResult (lit "hi") (lit "warn") 0).
Proof.
  assert (Hn : not_an_object (json_loads (strip (lit "hi" ++ nl))))
    by (vm_compute; exact I).
  split; [exact Hn|].
  exact (proj2 (@shell_exec_fallback cpython defaults
                  (reply (mkData (Some (lit "hi" ++ nl)) (Some (lit "warn"))
                                 (Some 0)))
                  (lit "echo hi") None None _ eq_refl) Hn).
Defined.

(** C8 as stated fails twice.  The outer stdout "hi" and a newline is not
    empty and is not JSON, and the stdout returned is "hi", not the raw
    text.  The outer stdout [partial_output] is an object without stdout
    and stderr, so not the expected triple, and the tool returns an empty
    stdout and exit code 5, not the outer text and 0. *)
Lemma shell_exec_fallback_not_raw :
  (let outer := lit "hi" ++ nl in
   outer <> []
   /\ json_loads outer = None
   /\ ShellExec.shell_exec
        (reply (mkData (Some outer) (Some []) (Some 0)))
        (lit "echo hi") None None
      = Return (ShellExec.mkResult (lit "hi") [] 0)
   /\ lit "hi" <> outer)
  /\ (partial_output <> []
      /\ json_loads partial_output
         = Some (JObject [(lit "exit_code", JInt 5)])
      /\ (forall o e n,
            ~ is_triple (JObject [(lit "exit_code", JInt 5)]) o e n)
      /\ ShellExec.shell_exec
           (reply (mkData (Some partial_output) (Some []) (Some 0)))
           (lit "exit 5") None None
         = Return (ShellExec.mkResult [] [] 5)).
Proof.
  split.
  - cbv zeta. split; [discriminate|]. split; [reflexivity|].
    split; [reflexivity | discriminate].
  - split; [discriminate|]. split; [reflexivity|]. split; [|reflexivity].
    intros o e n [items [E [Ho _]]]. injection E as <-.
    vm_compute in Ho. discriminate.
Qed.

(** The script [sleep 60] under the defaults and a ceiling of 7 s. *)
Lemma shell_exec_timeout_is_success_witness :
  ShellExec.shell_exec (Wire.serve 7 slow_docker) (lit "sleep 60") None None
  = Return (ShellExec.mkResult [] (lit "TIMEOUT") 0).
Proof.
  exact (proj1 (proj2 (@shell_exec_timeout_is_success cpython defaults 7
                         slow_docker (lit "sleep 60") None None
                         10 None None 0 eq_refl eq_refl eq_refl))).
Defined.

(** With the reference dedent, the code sent for an empty string is the
    introspection program itself. *)
Lemma python_exec_empty_code_sent :
  p_code (PythonExec.make_payload (Some [])) = PythonExec.introspection.
Proof. vm_compute. reflexivity. Qed.

(* ------------------------------------------------------------------ *)
(** ** Further properties of the broker *)

Section BrokerMore.
Import Execd.
Variable T : Z.                     (* DEFAULT_TIMEOUT *)

Lemma utf8_len_bound (s : str) : len s <= utf8_len s <= 4 * len s.
Proof.
  induction s as [|c r IH]; [unfold len; simpl; lia|].
  change (utf8_len (c :: r)) with (utf8_width c + utf8_len r).
  assert (W : 1 <= utf8_width c <= 4).
  { unfold utf8_width.
    destruct (c <? 128)%N; [lia|].
    destruct (c <? 2048)%N; [lia|].
    destruct (c <? 65536)%N; lia. }
  unfold len in *.
  change (Datatypes.length (c :: r)) with (S (Datatypes.length r)). lia.
Qed.

Lemma slice_cap_len (s : str) : len (slice_to OUTPUT_CAP s) <= 32768.
Proof.
  rewrite slice_to_len by (unfold OUTPUT_CAP; lia).
  unfold OUTPUT_CAP. lia.
Qed.


(** X2. Every 2xx body of the handler, on the completed path and on the
    timeout path alike, carries at most 32768 characters of stdout and of
    stderr, hence at most 131072 bytes of each once encoded in UTF-8. *)
Theorem run_response_bounded (req : RunReq) (p : process) (r : RunResp) :
  run T req p = Ok r ->
  len (stdout r) <= 32768 /\ len (stderr r) <= 32768
  /\ utf8_len (stdout r) <= 131072 /\ utf8_len (stderr r) <= 131072.
Proof.
  intros Hr.
  assert (B : len (stdout r) <= 32768 /\ len (stderr r) <= 32768).
  { unfold run in Hr.
    destruct (subprocess_run p (deadline T req)) as [o e rc | | m | m];
      try discriminate; injection Hr as <-; simpl.
    - split; apply slice_cap_len.
    - unfold len. simpl. lia. }
  destruct B as [B1 B2].
  pose proof (utf8_len_bound (stdout r)).
  pose proof (utf8_len_bound (stderr r)).
  lia.
Qed.

(** X3. For a request that satisfies the field constraints and a ceiling
    of at least one second, the timeout handed to the process lies between
    1 and 30 seconds. *)
Theorem valid_request_deadline (req : RunReq) :
  RunReq_valid req = true ->
  1 <= T ->
  1 <= deadline T req <= 30.
Proof.
  unfold RunReq_valid, deadline. intros Hv HT.
  repeat (apply andb_true_iff in Hv; destruct Hv as [Hv ?]).
  apply Z.leb_le in Hv.
  match goal with H : (timeout_s req <=? 30) = true |- _ =>
    apply Z.leb_le in H end.
  lia.
Qed.

End BrokerMore.

(* ------------------------------------------------------------------ *)
(** ** Further properties of the two tools *)

Section ToolsMore.
Context `{PythonLib} `{Settings}.

Lemma http_error_msg_contains (e : str) :
  prefix (lit "sandbox HTTP error: ") (http_error_msg e)
  /\ contains (http_error_msg e) e
  /\ contains (http_error_msg e) EXEC_URL.
Proof.
  unfold http_error_msg, prefix, contains. split; [|split].
  - eexists. reflexivity.
  - exists (lit "sandbox HTTP error: "). eexists. reflexivity.
  - exists (lit "sandbox HTTP error: " ++ e ++ lit ". Check sandbox service (").
    exists (lit ").").
    rewrite <- !app_assoc. reflexivity.
Qed.

Lemma lookup_none_get (items : list (str * json)) (k : str) (d : json) :
  lookup items k = None -> get items k d = d.
Proof.
  induction items as [|[k' v'] r IH]; simpl; [reflexivity|].
  destruct (str_eqb k' k); [discriminate | exact IH].
Qed.

Lemma absent_or_get (items : list (str * json)) (k : str) (d v : json) :
  absent_or items k d v -> get items k d = v.
Proof.
  intros [[Hn ->] | Hs].
  - apply lookup_none_get. exact Hn.
  - apply lookup_get. exact Hs.
Qed.

(** X4. Whenever the direct-code tool returns a result, the broker had
    answered with exit code 0 and a stdout that holds a character other
    than white space, and the result carries exit code 0 and the stdout
    and stderr of that answer unchanged: no result ever reports a failed
    or silent run. *)
Theorem python_exec_result_shape (post : client) (code : option str)
  (r : PythonExec.PythonExecResult) :
  PythonExec.python_exec post code = Return r ->
  PythonExec.exit_code r = 0
  /\ blank (PythonExec.stdout r) = false
  /\ exists d : data,
       post (EXEC_URL ++ lit "/run") (CPU_SEC + 3)
            (PythonExec.make_payload code) = Body d
       /\ d_exit_code d = Some 0
       /\ PythonExec.stdout r = or_empty (d_stdout d)
       /\ PythonExec.stderr r = or_empty (d_stderr d).
Proof.
  unfold PythonExec.python_exec.
  destruct (post _ _ _) as [e | e | d] eqn:Hp; try discriminate.
  unfold PythonExec.normalize.
  destruct (d_exit_code d) as [c|] eqn:Ec; [|discriminate].
  destruct (c =? 0) eqn:E0; [|discriminate].
  apply Z.eqb_eq in E0. subst c. simpl negb. cbv iota.
  rewrite truthy_strip.
  destruct (blank (or_empty (d_stdout d))) eqn:Eb; [discriminate|].
  simpl. intros [= <-]. simpl.
  split; [reflexivity|]. split; [exact Eb|].
  exists d. split; [reflexivity|]. split; [exact Ec|]. split; reflexivity.
Qed.

(** X5. When the HTTP call fails, both tools raise an error that starts
    with "sandbox HTTP error: ", and contains the text of the failure and
    the configured endpoint. *)
Theorem transport_error_names_endpoint (post : client) (code : option str)
  (script : str) (stdin : option str) (timeout_s : option Z) (e1 e2 : str) :
  post (EXEC_URL ++ lit "/run") (CPU_SEC + 3)
       (PythonExec.make_payload code) = HTTPError e1 ->
  post (EXEC_URL ++ lit "/run") (ShellExec.int_or timeout_s CPU_SEC + 3)
       (ShellExec.make_payload script stdin timeout_s) = HTTPError e2 ->
  (exists msg, PythonExec.python_exec post code = ToolError msg
               /\ prefix (lit "sandbox HTTP error: ") msg
               /\ contains msg e1 /\ contains msg EXEC_URL)
  /\ (exists msg, ShellExec.shell_exec post script stdin timeout_s
                  = ToolError msg
                  /\ prefix (lit "sandbox HTTP error: ") msg
                  /\ contains msg e2 /\ contains msg EXEC_URL).
Proof.
  intros H1 H2. split.
  - exists (http_error_msg e1). unfold PythonExec.python_exec. rewrite H1.
    split; [reflexivity | apply http_error_msg_contains].
  - exists (http_error_msg e2). unfold ShellExec.shell_exec. rewrite H2.
    split; [reflexivity | apply http_error_msg_contains].
Qed.

(** X6. Code that outlasts the broker's deadline makes the direct-code
    tool raise "sandbox failed (exit 124): TIMEOUT", whatever the process
    had printed. *)
Theorem python_exec_timeout_raises (T : Z)
  (docker : Execd.RunReq -> Execd.process) (code : option str)
  (dur : Q) (o e : option str) (rc : Z) :
  let req := Wire.request_of (PythonExec.make_payload code) in
  Execd.RunReq_valid req = true ->
  docker req = Execd.Runs dur o e rc ->
  (inject_Z (Execd.deadline T req) < dur)%Q ->
  PythonExec.python_exec (Wire.serve T docker) code
  = ToolError (lit "sandbox failed (exit 124): TIMEOUT").
Proof.
  intros req Hv Hd Hlate.
  unfold PythonExec.python_exec, Wire.serve. fold req. rewrite Hv, Hd.
  unfold Execd.run. rewrite subprocess_run_late by exact Hlate.
  reflexivity.
Qed.

(** X7. Code that ends within the deadline with return code 0 and whose
    stdout, cut to 32768 characters, holds a character other than white
    space, is answered by the direct-code tool with the cut stdout, the
    cut stderr, exit code 0 and the parsed JSON of the cut stdout if it
    parses. *)
Theorem python_exec_through_broker (T : Z)
  (docker : Execd.RunReq -> Execd.process) (code : option str)
  (dur : Q) (o e : option str) :
  let req := Wire.request_of (PythonExec.make_payload code) in
  let out := firstn (Z.to_nat 32768) (or_empty o) in
  let err := firstn (Z.to_nat 32768) (or_empty e) in
  Execd.RunReq_valid req = true ->
  docker req = Execd.Runs dur o e 0 ->
  (dur <= inject_Z (Execd.deadline T req))%Q ->
  blank out = false ->
  PythonExec.python_exec (Wire.serve T docker) code
  = Return (PythonExec.mkResult out err 0
              (match json_loads out with Some v => v | None => JNull end)).
Proof.
  intros req out err Hv Hd Hin Hb.
  unfold PythonExec.python_exec, Wire.serve. fold req. rewrite Hv, Hd.
  unfold Execd.run. rewrite subprocess_run_in_time by exact Hin.
  unfold Wire.body_of, PythonExec.normalize. simpl.
  change (slice_to Execd.OUTPUT_CAP (or_empty o)) with out.
  change (slice_to Execd.OUTPUT_CAP (or_empty e)) with err.
  rewrite truthy_strip, Hb. reflexivity.
Qed.

(** X8. For the shell tool a timeout of 0 is the same as no timeout and an
    empty stdin the same as no stdin: the payload, the client timeout and
    the whole call are those of the defaults. *)
Theorem shell_exec_falsy_arguments (post : client) (script : str)
  (stdin : option str) (timeout_s : option Z) :
  ShellExec.shell_exec post script stdin (Some 0)
  = ShellExec.shell_exec post script stdin None
  /\ ShellExec.shell_exec post script (Some []) timeout_s
     = ShellExec.shell_exec post script None timeout_s
  /\ ShellExec.make_payload script (Some []) (Some 0)
     = ShellExec.make_payload script None None
  /\ p_timeout_s (ShellExec.make_payload script stdin (Some 0)) = CPU_SEC.
Proof.
  repeat split.
Qed.

(** X9. A JSON object printed by the wrapper is unpacked key by key: a
    missing stdout counts as empty, a missing stderr as the outer stderr,
    a missing exit_code as 0, and the keys that are present (as strings,
    and as an integer) are returned as they are. *)
Theorem shell_exec_missing_keys (post : client) (script : str)
  (stdin : option str) (timeout_s : option Z) (d : data)
  (items : list (str * json)) (o e : str) (n : Z) :
  json_loads [] = None ->
  post (EXEC_URL ++ lit "/run") (ShellExec.int_or timeout_s CPU_SEC + 3)
       (ShellExec.make_payload script stdin timeout_s) = Body d ->
  json_loads (strip (or_empty (d_stdout d))) = Some (JObject items) ->
  absent_or items (lit "stdout") (JString []) (JString o) ->
  absent_or items (lit "stderr") (JString []) (JString e) ->
  absent_or items (lit "exit_code") (JInt 0) (JInt n) ->
  ShellExec.shell_exec post script stdin timeout_s
  = Return (ShellExec.mkResult o
              (if str_eqb e [] then or_empty (d_stderr d) else e) n).
Proof.
  intros Hnil Hpost Hj Ho He Hn.
  unfold ShellExec.shell_exec. rewrite Hpost. unfold ShellExec.unwrap.
  destruct (strip (or_empty (d_stdout d))) as [|c r] eqn:S;
    [rewrite Hnil in Hj; discriminate|].
  simpl negb. cbv iota. unfold ShellExec.unpack. rewrite Hj.
  rewrite (absent_or_get _ _ _ _ Ho), (absent_or_get _ _ _ _ He),
    (absent_or_get _ _ _ _ Hn).
  simpl. destruct e; reflexivity.
Qed.


End ToolsMore.

(* ------------------------------------------------------------------ *)
(** ** Dicts *)

Section DictLemmas.
Context {V : Type}.
Implicit Types (d : Dict.dict V) (k : str) (v : V).

Lemma str_eqb_eq (a b : str) : str_eqb a b = true <-> a = b.
Proof.
  unfold str_eqb. destruct (list_eq_dec N.eq_dec a b); split;
    congruence.
Qed.

Lemma str_eqb_refl (a : str) : str_eqb a a = true.
Proof. apply str_eqb_eq. reflexivity. Qed.

Lemma str_eqb_neq (a b : str) : a <> b -> str_eqb a b = false.
Proof.
  intros Hn. destruct (str_eqb a b) eqn:E; [|reflexivity].
  apply str_eqb_eq in E. contradiction.
Qed.

Lemma get_setitem_same d k v : Dict.get (Dict.setitem d k v) k = Some v.
Proof.
  induction d as [|[k' w] r IH]; simpl.
  - rewrite str_eqb_refl. reflexivity.
  - destruct (str_eqb k' k) eqn:E; simpl; rewrite E; [reflexivity | exact IH].
Qed.

Lemma get_setitem_other d k k' v :
  k <> k' -> Dict.get (Dict.setitem d k v) k' = Dict.get d k'.
Proof.
  intros Hn. induction d as [|[k0 w] r IH]; simpl.
  - rewrite (str_eqb_neq _ _ Hn). reflexivity.
  - destruct (str_eqb k0 k) eqn:E; simpl.
    + apply str_eqb_eq in E. subst k0.
      rewrite (str_eqb_neq _ _ Hn). reflexivity.
    + destruct (str_eqb k0 k'); [reflexivity | exact IH].
Qed.

Lemma get_absent d k : ~ In k (Dict.keys d) -> Dict.get d k = None.
Proof.
  induction d as [|[k0 w] r IH]; simpl; [reflexivity|].
  intros Hn. rewrite str_eqb_neq by tauto. apply IH. tauto.
Qed.

Lemma get_present d k v : Dict.get d k = Some v -> In (k, v) d.
Proof.
  induction d as [|[k0 w] r IH]; simpl; [discriminate|].
  destruct (str_eqb k0 k) eqn:E.
  - apply str_eqb_eq in E. intros [= ->]. left. congruence.
  - intros Hg. right. apply IH. exact Hg.
Qed.

Lemma keys_pop d k k' : In k' (Dict.keys (Dict.pop d k)) -> In k' (Dict.keys d).
Proof.
  induction d as [|[k0 w] r IH]; simpl; [tauto|].
  destruct (str_eqb k0 k); simpl; [tauto|].
  intros [Hk | Hk]; [left; exact Hk | right; apply IH; exact Hk].
Qed.

Lemma keys_setitem d k v k' :
  In k' (Dict.keys (Dict.setitem d k v)) -> k' = k \/ In k' (Dict.keys d).
Proof.
  induction d as [|[k0 w] r IH]; simpl.
  - intros [Hk | []]. left. symmetry. exact Hk.
  - destruct (str_eqb k0 k); simpl; [tauto|].
    intros [Hk | Hk]; [tauto|]. destruct (IH Hk); tauto.
Qed.

Lemma nodup_setitem d k v :
  NoDup (Dict.keys d) -> NoDup (Dict.keys (Dict.setitem d k v)).
Proof.
  induction d as [|[k0 w] r IH]; simpl; intros Hd.
  - constructor; [intros [] | constructor].
  - inversion Hd as [|? ? Hx Hr]; subst.
    destruct (str_eqb k0 k) eqn:E; simpl.
    + constructor; assumption.
    + constructor; [|apply IH; exact Hr].
      intros Hin. destruct (keys_setitem _ _ _ _ Hin) as [-> | Hin'].
      * rewrite str_eqb_refl in E. discriminate.
      * contradiction.
Qed.

Lemma nodup_pop d k : NoDup (Dict.keys d) -> NoDup (Dict.keys (Dict.pop d k)).
Proof.
  induction d as [|[k0 w] r IH]; simpl; intros Hd; [constructor|].
  inversion Hd as [|? ? Hx Hr]; subst.
  destruct (str_eqb k0 k); simpl; [exact Hr|].
  constructor; [|apply IH; exact Hr].
  intros Hin. apply Hx. eapply keys_pop. exact Hin.
Qed.

Lemma get_pop_same d k : NoDup (Dict.keys d) -> Dict.get (Dict.pop d k) k = None.
Proof.
  induction d as [|[k0 w] r IH]; simpl; intros Hd; [reflexivity|].
  inversion Hd as [|? ? Hx Hr]; subst.
  destruct (str_eqb k0 k) eqn:E; simpl.
  - apply str_eqb_eq in E. subst k0. apply get_absent. exact Hx.
  - rewrite E. apply IH. exact Hr.
Qed.

Lemma get_pop_other d k k' :
  k <> k' -> Dict.get (Dict.pop d k) k' = Dict.get d k'.
Proof.
  intros Hn. induction d as [|[k0 w] r IH]; simpl; [reflexivity|].
  destruct (str_eqb k0 k) eqn:E; simpl.
  - apply str_eqb_eq in E. subst k0.
    rewrite (str_eqb_neq _ _ Hn). reflexivity.
  - destruct (str_eqb k0 k'); [reflexivity | exact IH].
Qed.

Lemma pop_absent d k : Dict.get d k = None -> Dict.pop d k = d.
Proof.
  induction d as [|[k0 w] r IH]; simpl; [reflexivity|].
  destruct (str_eqb k0 k); [discriminate|].
  intros Hg. rewrite (IH Hg). reflexivity.
Qed.

End DictLemmas.

(* ------------------------------------------------------------------ *)
(** ** The scratch-pad *)

Section NotepadProps.
Import Notepad.

Lemma after_nodup_gen (calls : list call) (s : store) :
  NoDup (Dict.keys s) -> NoDup (Dict.keys (fold_left apply calls s)).
Proof.
  revert s. induction calls as [|c r IH]; intros s Hs; [exact Hs|].
  simpl. apply IH. destruct c as [k t | k]; simpl.
  - apply nodup_setitem. exact Hs.
  - apply nodup_pop. exact Hs.
Qed.

Lemma after_nodup (calls : list call) : NoDup (Dict.keys (after calls)).
Proof. apply after_nodup_gen. constructor. Qed.

Lemma read_fold (calls : list call) (s : store) (key : str) :
  NoDup (Dict.keys s) ->
  read (fold_left apply calls s) key = latest calls key (read s key).
Proof.
  revert s. induction calls as [|c r IH]; intros s Hs; [reflexivity|].
  simpl fold_left. destruct c as [k t | k]; simpl latest.
  - rewrite IH by (apply nodup_setitem; exact Hs). f_equal.
    unfold apply, notepad_write, write, read. simpl fst.
    destruct (str_eqb k key) eqn:E.
    + apply str_eqb_eq in E. subst k. apply get_setitem_same.
    + apply get_setitem_other. intros ->. rewrite str_eqb_refl in E.
      discriminate.
  - rewrite IH by (apply nodup_pop; exact Hs). f_equal.
    unfold apply, notepad_clear, clear, read. simpl fst.
    destruct (str_eqb k key) eqn:E.
    + apply str_eqb_eq in E. subst k. apply get_pop_same. exact Hs.
    + apply get_pop_other. intros ->. rewrite str_eqb_refl in E.
      discriminate.
Qed.

(** X11. After any sequence of notepad_write and notepad_clear calls on
    the empty store, reading a key gives the text of the latest write to
    that key, cut to its first 1024 characters, and nothing if the key
    was never written or was cleared since; calls on other keys do not
    matter. *)
Theorem notepad_read_latest (calls : list call) (key : str) :
  read (after calls) key = latest calls key None
  /\ notepad_read (after calls) key
     = match latest calls key None with Some t => t | None => [] end.
Proof.
  assert (R : read (after calls) key = latest calls key None).
  { unfold after. rewrite read_fold by constructor. reflexivity. }
  split; [exact R|].
  unfold notepad_read. rewrite R.
  destruct (latest calls key None) as [[|c t]|]; reflexivity.
Qed.

Lemma after_capped_gen (calls : list call) (s : store) :
  Forall (fun kv => len (snd kv) <= 1024) s ->
  Forall (fun kv => len (snd kv) <= 1024) (fold_left apply calls s).
Proof.
  revert s. induction calls as [|c r IH]; intros s Hs; [exact Hs|].
  simpl. apply IH. destruct c as [k t | k]; simpl.
  - unfold write. induction s as [|[k0 w] s' IHs]; simpl.
    + constructor; [|constructor]. simpl.
      rewrite slice_to_len by lia. lia.
    + inversion Hs as [|? ? Hw Hs']; subst.
      destruct (str_eqb k0 k).
      * constructor; [|exact Hs']. simpl.
        rewrite slice_to_len by lia. lia.
      * constructor; [exact Hw | apply IHs; exact Hs'].
  - unfold clear. induction s as [|[k0 w] s' IHs]; simpl; [constructor|].
    inversion Hs as [|? ? Hw Hs']; subst.
    destruct (str_eqb k0 k); [exact Hs'|].
    constructor; [exact Hw | apply IHs; exact Hs'].
Qed.

(** X12. Whatever the calls, no text held by the in-process store is
    longer than 1024 characters, and so is no text that notepad_read
    returns. *)
Theorem notepad_text_capped (calls : list call) (key : str) :
  (forall t, read (after calls) key = Some t -> len t <= 1024)
  /\ len (notepad_read (after calls) key) <= 1024.
Proof.
  assert (A : forall t, read (after calls) key = Some t -> len t <= 1024).
  { intros t Ht. unfold read in Ht. apply get_present in Ht.
    pose proof (after_capped_gen calls [] (Forall_nil _)) as F.
    rewrite Forall_forall in F. apply (F _ Ht). }
  split; [exact A|].
  unfold notepad_read. destruct (read (after calls) key) as [t|] eqn:E.
  - destruct (PyStr.truthy t); [apply A; reflexivity | unfold len; simpl; lia].
  - unfold len. simpl. lia.
Qed.


(** X14. Clearing a key makes it read as missing and leaves every other
    key as it was; clearing a key that is not in the store changes
    nothing and raises nothing. *)
Theorem notepad_clear_effect (calls : list call) (key other : str) :
  let s := after calls in
  let s' := fst (notepad_clear s key) in
  read s' key = None
  /\ notepad_read s' key = []
  /\ (other <> key -> read s' other = read s other)
  /\ (read s key = None -> s' = s).
Proof.
  cbv zeta. unfold notepad_clear, clear, read. simpl fst.
  assert (R : Dict.get (Dict.pop (after calls) key) key = None)
    by (apply get_pop_same, after_nodup).
  split; [exact R|]. split; [|split].
  - unfold notepad_read, read. rewrite R. reflexivity.
  - intros Hn. apply get_pop_other. congruence.
  - apply pop_absent.
Qed.

End NotepadProps.

(* ------------------------------------------------------------------ *)
(** ** Loading the enabled tools *)

Section RegistryProps.
Import Registry.








End RegistryProps.

(* ------------------------------------------------------------------ *)
(** ** The FHIR client *)

Section FhirProps.
Import Fhir.





Variable limits : Dict.dict ToolLimit.
Variable fhir_base_url : str.
Variable GET : str -> Z -> str + json.
Variable dumps : json -> str.

(** X18. When the settings hold no limit for fhir_query (as with the
    default, empty limits), http_get and the fhir_query tool raise
    AttributeError for every path, whatever the server would answer: the
    timeout of the client is looked up before the request is made. *)
Theorem fhir_query_needs_limit (path : str) :
  Dict.get limits (lit "fhir_query") = None ->
  http_get limits fhir_base_url GET path = Raise AttributeError
  /\ fhir_query limits fhir_base_url GET dumps path = Raise AttributeError.
Proof.
  intros Hn. unfold fhir_query, http_get, get_timeout. rewrite Hn.
  split; reflexivity.
Qed.

(** X19. With a limit for fhir_query and an answer of the server: when
    max_results is missing or 0 the answer is serialized as received; when
    it is n > 0 and the answer is an object whose entry is a list, the
    list is cut to its first n items (so at most n), and every other key
    of the object is left as it was. *)
Theorem fhir_query_truncates (path : str) (lim : ToolLimit) (data : json) :
  Dict.get limits (lit "fhir_query") = Some lim ->
  http_get limits fhir_base_url GET path = Value data ->
  (max_results lim = None \/ max_results lim = Some 0 ->
   fhir_query limits fhir_base_url GET dumps path = Value (dumps data))
  /\ (forall n items l,
        max_results lim = Some n -> 0 < n ->
        data = JObject items ->
        Dict.get items (lit "entry") = Some (JArray l) ->
        let items' :=
          Dict.setitem items (lit "entry") (JArray (firstn (Z.to_nat n) l)) in
        fhir_query limits fhir_base_url GET dumps path
        = Value (dumps (JObject items'))
        /\ Z.of_nat (List.length (firstn (Z.to_nat n) l)) <= n
        /\ (forall k, k <> lit "entry" ->
                      Dict.get items' k = Dict.get items k)).
Proof.
  intros Hl Hg. unfold fhir_query. rewrite Hg.
  unfold truncate, _limit_for. rewrite Hl. split.
  - intros [-> | ->]; reflexivity.
  - intros n items l Hm Hn -> He. rewrite Hm.
    assert (E0 : (n =? 0) = false) by (apply Z.eqb_neq; lia).
    rewrite E0, He. unfold slice_entry, list_slice_to.
    assert (E1 : (n <? 0) = false) by (apply Z.ltb_ge; lia).
    rewrite E1. split; [reflexivity|]. split.
    + rewrite length_firstn. lia.
    + intros k Hk. apply get_setitem_other. congruence.
Qed.

End FhirProps.

(* ------------------------------------------------------------------ *)
(** ** The 64-bit mixer *)

Section MixerProps.
Import Mixer.

Lemma MASK_ones : MASK = Z.ones 64.
Proof. reflexivity. Qed.

Lemma land_MASK (a : Z) : Z.land a MASK = a mod 2 ^ 64.
Proof. rewrite MASK_ones. apply Z.land_ones. lia. Qed.

Lemma u64_land (a : Z) : u64 (Z.land a MASK).
Proof. rewrite land_MASK. unfold u64. apply Z.mod_pos_bound. lia. Qed.

Lemma u64_mod (x : Z) : u64 x -> x mod 2 ^ 64 = x.
Proof. unfold u64. intros Hx. apply Z.mod_small. exact Hx. Qed.

Lemma u64_high (x i : Z) : u64 x -> 64 <= i -> Z.testbit x i = false.
Proof.
  intros Hx Hi. rewrite <- (u64_mod x Hx).
  apply Z.mod_pow2_bits_high. lia.
Qed.

Lemma u64_lxor (a b : Z) : u64 a -> u64 b -> u64 (Z.lxor a b).
Proof.
  intros Ha Hb.
  assert (E : (Z.lxor a b) mod 2 ^ 64 = Z.lxor a b).
  { apply Z.bits_inj'. intros n Hn.
    destruct (Z_lt_le_dec n 64) as [L | G].
    - apply Z.mod_pow2_bits_low. lia.
    - rewrite Z.mod_pow2_bits_high by lia.
      rewrite Z.lxor_spec, (u64_high a n Ha G), (u64_high b n Hb G).
      reflexivity. }
  rewrite <- E. unfold u64. apply Z.mod_pos_bound. lia.
Qed.

Lemma u64_shiftr (x s : Z) : u64 x -> 0 <= s -> u64 (Z.shiftr x s).
Proof.
  unfold u64. intros Hx Hs. rewrite Z.shiftr_div_pow2 by exact Hs.
  assert (P : 0 < 2 ^ s) by (apply Z.pow_pos_nonneg; lia).
  split.
  - apply Z.div_pos; lia.
  - apply Z.le_lt_trans with x; [|lia].
    apply Z.div_le_upper_bound; [exact P|]. nia.
Qed.

(** Adding a constant modulo 2^64 loses nothing. *)
Lemma add_inj (c a b : Z) :
  u64 a -> u64 b -> Z.land (a + c) MASK = Z.land (b + c) MASK -> a = b.
Proof.
  unfold u64. rewrite !land_MASK. intros Ha Hb E.
  rewrite (Z.mod_eq (a + c)), (Z.mod_eq (b + c)) in E by lia.
  change (2 ^ 64) with 18446744073709551616 in *. lia.
Qed.

(** [x ^ (x >> s)] loses nothing. *)
Lemma xorshift_inj (s a b : Z) :
  0 < s -> 0 <= a -> 0 <= b ->
  Z.lxor a (Z.shiftr a s) = Z.lxor b (Z.shiftr b s) -> a = b.
Proof.
  intros Hs Ha Hb E. apply Z.lxor_eq.
  set (d := Z.lxor a b).
  assert (D : Z.lxor d (Z.shiftr d s) = 0).
  { unfold d. rewrite Z.shiftr_lxor.
    transitivity (Z.lxor (Z.lxor a (Z.shiftr a s)) (Z.lxor b (Z.shiftr b s))).
    - apply Z.bits_inj'. intros n _. rewrite !Z.lxor_spec.
      destruct (Z.testbit a n), (Z.testbit b n),
        (Z.testbit (Z.shiftr a s) n), (Z.testbit (Z.shiftr b s) n);
        reflexivity.
    - rewrite E. apply Z.lxor_nilpotent. }
  apply Z.lxor_eq in D.
  assert (N : 0 <= d) by (unfold d; apply Z.lxor_nonneg; tauto).
  rewrite Z.shiftr_div_pow2 in D by lia.
  destruct (Z.eq_dec d 0) as [Z0 | NZ]; [exact Z0|].
  assert (P : 1 < 2 ^ s) by (apply Z.pow_gt_1; lia).
  pose proof (Z.div_lt d (2 ^ s) ltac:(lia) P). lia.
Qed.

(** Multiplying by a constant that has an inverse modulo 2^64 loses
    nothing. *)
Lemma mul_inj (c c' a b : Z) :
  (c * c') mod 2 ^ 64 = 1 ->
  u64 a -> u64 b -> Z.land (a * c) MASK = Z.land (b * c) MASK -> a = b.
Proof.
  intros Hc Ha Hb. rewrite !land_MASK. intros E.
  assert (R : forall x, u64 x -> x = ((x * c) mod 2 ^ 64 * c') mod 2 ^ 64).
  { intros x Hx. rewrite Z.mul_mod_idemp_l by lia.
    rewrite <- Z.mul_assoc, <- Z.mul_mod_idemp_r, Hc, Z.mul_1_r by lia.
    symmetry. apply u64_mod. exact Hx. }
  rewrite (R a Ha), (R b Hb), E. reflexivity.
Qed.

(** The rotation by [k] places. *)
Lemma rot_bit (k x j : Z) :
  0 <= j < 64 ->
  Z.testbit (Z.land (Z.lor (Z.shiftl x k) (Z.shiftr x (64 - k))) MASK) j
  = Z.testbit x (j - k) || Z.testbit x (j + (64 - k)).
Proof.
  intros Hj. rewrite Z.land_spec, Z.lor_spec, MASK_ones.
  rewrite Z.shiftl_spec, Z.shiftr_spec by lia.
  rewrite Z.ones_spec_low by lia. apply andb_true_r.
Qed.

Lemma rot_inj (k a b : Z) :
  0 < k < 64 -> u64 a -> u64 b ->
  Z.land (Z.lor (Z.shiftl a k) (Z.shiftr a (64 - k))) MASK
  = Z.land (Z.lor (Z.shiftl b k) (Z.shiftr b (64 - k))) MASK ->
  a = b.
Proof.
  intros Hk Ha Hb E. apply Z.bits_inj'. intros n Hn.
  destruct (Z_lt_le_dec n 64) as [L | G];
    [|rewrite (u64_high a n Ha G), (u64_high b n Hb G); reflexivity].
  destruct (Z_lt_le_dec (n + k) 64) as [L' | G'].
  - apply (f_equal (fun z => Z.testbit z (n + k))) in E.
    rewrite !rot_bit in E by lia.
    replace (n + k - k) with n in E by lia.
    rewrite (u64_high a (n + k + (64 - k)) Ha),
      (u64_high b (n + k + (64 - k)) Hb), !orb_false_r in E by lia.
    exact E.
  - apply (f_equal (fun z => Z.testbit z (n + k - 64))) in E.
    rewrite !rot_bit in E by lia.
    replace (n + k - 64 + (64 - k)) with n in E by lia.
    rewrite !(Z.testbit_neg_r _ (n + k - 64 - k)) in E by lia.
    exact E.
Qed.

Lemma xor_const_inj (c a b : Z) : Z.lxor a c = Z.lxor b c -> a = b.
Proof.
  intros E. apply Z.lxor_eq.
  transitivity (Z.lxor (Z.lxor a c) (Z.lxor b c)).
  - apply Z.bits_inj'. intros n _. rewrite !Z.lxor_spec.
    destruct (Z.testbit a n), (Z.testbit b n), (Z.testbit c n); reflexivity.
  - rewrite E. apply Z.lxor_nilpotent.
Qed.

Lemma step_u64 (x i : Z) : u64 (step x i).
Proof. unfold step. apply u64_lxor; apply u64_land. Qed.

Lemma rot_amount (i : Z) : 0 < 13 + Z.land i 31 < 64.
Proof.
  change 31 with (Z.ones 5). rewrite Z.land_ones by lia.
  pose proof (Z.mod_pos_bound i (2 ^ 5) ltac:(lia)).
  change (2 ^ 5) with 32 in *. lia.
Qed.

Lemma step_inj (i a b : Z) : u64 a -> u64 b -> step a i = step b i -> a = b.
Proof.
  intros Ha Hb E. unfold step in E. cbv zeta in E.
  apply xor_const_inj in E.
  assert (S : forall x s, 0 <= s -> u64 x -> u64 (Z.lxor x (Z.shiftr x s))).
  { intros x s Hs Hx. apply u64_lxor; [exact Hx | apply u64_shiftr; assumption]. }
  assert (P : forall x, u64 x -> 0 <= x) by (unfold u64; intros; lia).
  apply rot_inj in E;
    [|apply rot_amount | apply S; [lia | apply u64_land]
      | apply S; [lia | apply u64_land]].
  apply xorshift_inj in E; [|lia | apply P, u64_land | apply P, u64_land].
  apply (mul_inj _ 3573116690164977347) in E;
    [|reflexivity | apply S; [lia | apply u64_land]
      | apply S; [lia | apply u64_land]].
  apply xorshift_inj in E; [|lia | apply P, u64_land | apply P, u64_land].
  apply (mul_inj _ 10871156337175269513) in E;
    [|reflexivity | apply S; [lia | apply u64_land]
      | apply S; [lia | apply u64_land]].
  apply xorshift_inj in E; [|lia | apply P, u64_land | apply P, u64_land].
  apply add_inj in E; assumption.
Qed.

Lemma fold_step_u64 (l : list Z) (x : Z) : u64 x -> u64 (fold_left step l x).
Proof.
  revert x. induction l as [|i r IH]; intros x Hx; [exact Hx|].
  simpl. apply IH. apply step_u64.
Qed.

Lemma fold_step_inj (l : list Z) (a b : Z) :
  u64 a -> u64 b -> fold_left step l a = fold_left step l b -> a = b.
Proof.
  revert a b. induction l as [|i r IH]; intros a b Ha Hb E; [exact E|].
  simpl in E. apply IH in E; [|apply step_u64 | apply step_u64].
  exact (step_inj i a b Ha Hb E).
Qed.

(** X20. For every seed, negative or of any size, and every number of
    rounds, the result is a 64-bit value, and it depends on the seed only
    through its residue modulo 2^64; with no round (rounds at most 0) it
    is that residue. *)
Theorem func_range (seed rounds : Z) :
  0 <= func seed rounds < 2 ^ 64
  /\ func seed rounds = func (seed mod 2 ^ 64) rounds
  /\ func (seed + 2 ^ 64) rounds = func seed rounds
  /\ (rounds <= 0 -> func seed rounds = seed mod 2 ^ 64).
Proof.
  unfold func. split; [|split; [|split]].
  - apply (fold_step_u64 _ _ (u64_land seed)).
  - rewrite !land_MASK, Z.mod_mod by lia. reflexivity.
  - rewrite !land_MASK. f_equal.
    rewrite <- (Z.mul_1_l (2 ^ 64)) at 1. apply Z.mod_add. lia.
  - intros Hr. unfold range.
    replace (Z.to_nat rounds) with 0%nat by lia.
    simpl. apply land_MASK.
Qed.

(** X21. For a fixed number of rounds the mixer never merges two seeds:
    two seeds give the same result exactly when they are congruent modulo
    2^64, so distinct 64-bit seeds give distinct results. *)
Theorem func_injective (a b rounds : Z) :
  func a rounds = func b rounds <-> a mod 2 ^ 64 = b mod 2 ^ 64.
Proof.
  unfold func. rewrite !land_MASK. split.
  - apply fold_step_inj; unfold u64; apply Z.mod_pos_bound; lia.
  - intros ->. reflexivity.
Qed.

End MixerProps.

(* ------------------------------------------------------------------ *)
(** ** The further properties at concrete inputs *)

Lemma run_response_bounded_witness :
  Execd.run 7 sample_req (Execd.Runs 5 (Some (lit "hi")) None 3)
  = Execd.Ok (Execd.mkRunResp (lit "hi") [] 3)
  /\ len (lit "hi") <= 32768 /\ len [] <= 32768
  /\ utf8_len (lit "hi") <= 131072 /\ utf8_len [] <= 131072.
Proof.
  split; [reflexivity|].
  exact (run_response_bounded 7 sample_req
           (Execd.Runs 5 (Some (lit "hi")) None 3)
           (Execd.mkRunResp (lit "hi") [] 3) eq_refl).
Defined.

Lemma valid_request_deadline_witness :
  Execd.RunReq_valid sample_req = true
  /\ 1 <= Execd.deadline 7 sample_req <= 30.
Proof.
  split; [reflexivity|].
  exact (valid_request_deadline 7 sample_req eq_refl ltac:(lia)).
Defined.

Lemma python_exec_result_shape_witness :
  PythonExec.python_exec
    (reply (mkData (Some (lit "hi" ++ nl)) (Some []) (Some 0)))
    (Some (lit "print('hi')"))
  = Return (PythonExec.mkResult (lit "hi" ++ nl) [] 0 JNull)
  /\ blank (lit "hi" ++ nl) = false.
Proof.
  split; [reflexivity|].
  exact (proj1 (proj2 (@python_exec_result_shape cpython defaults
           (reply (mkData (Some (lit "hi" ++ nl)) (Some []) (Some 0)))
           (Some (lit "print('hi')"))
           (PythonExec.mkResult (lit "hi" ++ nl) [] 0 JNull) eq_refl))).
Defined.

Lemma transport_error_names_endpoint_witness :
  exists msg,
    PythonExec.python_exec (fun _ _ _ => HTTPError (lit "Connection refused"))
      None
    = ToolError msg
    /\ prefix (lit "sandbox HTTP error: ") msg
    /\ contains msg (lit "Connection refused")
    /\ contains msg (lit "http://sandbox:8088").
Proof.
  exact (proj1 (@transport_error_names_endpoint cpython defaults
                  (fun _ _ _ => HTTPError (lit "Connection refused"))
                  None (lit "true") None None
                  (lit "Connection refused") (lit "Connection refused")
                  eq_refl eq_refl)).
Defined.

Lemma python_exec_timeout_raises_witness :
  PythonExec.python_exec (Wire.serve 7 slow_docker)
    (Some (lit "while True: pass"))
  = ToolError (lit "sandbox failed (exit 124): TIMEOUT").
Proof.
  exact (@python_exec_timeout_raises cpython defaults 7 slow_docker
           (Some (lit "while True: pass")) 10 None None 0
           eq_refl eq_refl eq_refl).
Defined.

Lemma python_exec_through_broker_witness :
  PythonExec.python_exec
    (Wire.serve 7 (fun _ => Execd.Runs 1 (Some (lit "hi" ++ nl)) None 0))
    (Some (lit "print('hi')"))
  = Return (PythonExec.mkResult (lit "hi" ++ nl) [] 0 JNull).
Proof.
  exact (@python_exec_through_broker cpython defaults 7
           (fun _ => Execd.Runs 1 (Some (lit "hi" ++ nl)) None 0)
           (Some (lit "print('hi')")) 1 (Some (lit "hi" ++ nl)) None
           eq_refl eq_refl ltac:(unfold Qle; simpl; lia) eq_refl).
Defined.

Lemma shell_exec_missing_keys_witness :
  ShellExec.shell_exec
    (reply (mkData (Some partial_output) (Some (lit "warn")) (Some 0)))
    (lit "exit 5") None None
  = Return (ShellExec.mkResult [] (lit "warn") 5).
Proof.
  exact (@shell_exec_missing_keys cpython defaults
           (reply (mkData (Some partial_output) (Some (lit "warn")) (Some 0)))
           (lit "exit 5") None None _
           [(lit "exit_code", JInt 5)] [] [] 5
           eq_refl eq_refl eq_refl
           (or_introl (conj eq_refl eq_refl))
           (or_introl (conj eq_refl eq_refl))
           (or_intror eq_refl)).
Defined.



Lemma fhir_query_needs_limit_witness :
  Fhir.fhir_query [] (lit "http://localhost:8080/fhir")
    (fun _ _ => inr (JObject [])) (fun _ => lit "{}") (lit "Patient")
  = Fhir.Raise Fhir.AttributeError.
Proof.
  exact (proj2 (fhir_query_needs_limit []
                  (lit "http://localhost:8080/fhir")
                  (fun _ _ => inr (JObject [])) (fun _ => lit "{}")
                  (lit "Patient") eq_refl)).
Defined.

Lemma fhir_query_truncates_witness :
  Fhir.fhir_query
    [(lit "fhir_query", Fhir.mkLimit (Some 2) (Some 30))]
    (lit "http://localhost:8080/fhir")
    (fun _ _ =>
       inr (JObject [(lit "entry", JArray [JInt 1; JInt 2; JInt 3])]))
    (fun v => match v with
              | JObject ((_, JArray l) :: _) =>
                  of_int (Z.of_nat (List.length l))
              | _ => []
              end)
    (lit "Patient?name=Smith")
  = Fhir.Value (lit "2").
Proof.
  exact (proj1
           (proj2
              (fhir_query_truncates
                 [(lit "fhir_query", Fhir.mkLimit (Some 2) (Some 30))]
                 (lit "http://localhost:8080/fhir")
                 (fun _ _ =>
                    inr (JObject
                           [(lit "entry", JArray [JInt 1; JInt 2; JInt 3])]))
                 (fun v => match v with
                           | JObject ((_, JArray l) :: _) =>
                               of_int (Z.of_nat (List.length l))
                           | _ => []
                           end)
                 (lit "Patient?name=Smith")
                 (Fhir.mkLimit (Some 2) (Some 30))
                 (JObject [(lit "entry", JArray [JInt 1; JInt 2; JInt 3])])
                 eq_refl eq_refl)
              2 [(lit "entry", JArray [JInt 1; JInt 2; JInt 3])]
              [JInt 1; JInt 2; JInt 3] eq_refl eq_refl eq_refl eq_refl)).
Defined.
